(** * The rules engine of game_2048.py, embedded in Rocq

    The board is a Python [List[List[int]]]: a list of rows of unbounded
    integers.  Functions that can raise return in the [result] monad, the
    exception kept as a value; [random] draws and the score file are explicit
    arguments. *)

From Stdlib Require Import ZArith List String Bool Lia QArith.
From stdpp Require Import list.
Import ListNotations.

Local Open Scope list_scope.
Local Open Scope Z_scope.

(** ** Exceptions and the error monad *)

(** The Python exceptions the modelled functions can raise. *)
Inductive exn : Set :=
| IndexError
| OSError
| JSONDecodeError
| ValueError
| TypeError
| AttributeError
| OverflowError
| RecursionError.

Inductive result (A : Type) : Type :=
| Ok (a : A)
| Raise (e : exn).
Arguments Ok {A} a.
Arguments Raise {A} e.

Definition bind {A B : Type} (m : result A) (k : A -> result B) : result B :=
  match m with
  | Ok a => k a
  | Raise e => Raise e
  end.

Notation "'let*' x := m 'in' k" := (bind m (fun x => k))
  (at level 10, x name, m at level 200, k at level 200).
Notation "'let*' ' p := m 'in' k" := (bind m (fun x => match x with p => k end))
  (at level 10, p pattern, m at level 200, k at level 200).

(** ** Grid primitives *)

Definition GRID_SIZE : nat := 4.

(** [row[i]] for a non-negative index: IndexError out of range. *)
Definition get_item {A : Type} (l : list A) (i : nat) : result A :=
  match l !! i with
  | Some x => Ok x
  | None => Raise IndexError
  end.

(** [row[i] = x] for a non-negative index: IndexError out of range. *)
Definition set_item {A : Type} (l : list A) (i : nat) (x : A) : result (list A) :=
  if (i <? length l)%nat then Ok (<[i:=x]> l) else Raise IndexError.

(** [a == b] on lists of integers. *)
Fixpoint row_eqb (a b : list Z) : bool :=
  match a, b with
  | [], [] => true
  | x :: a', y :: b' => (x =? y) && row_eqb a' b'
  | _, _ => false
  end.

Definition reverse (row : list Z) : list Z := rev row.

(** One step of [zip]: the next row is put in front of every column, the
    result as long as the shorter of the two. *)
Fixpoint zip_cons (row : list Z) (cols : list (list Z)) : list (list Z) :=
  match row, cols with
  | x :: row', col :: cols' => (x :: col) :: zip_cons row' cols'
  | _, _ => []
  end.

(** [[list(row) for row in zip( *board)]]: as many rows as the shortest row of
    [board] is long, none for the empty board. *)
Fixpoint transpose (board : list (list Z)) : list (list Z) :=
  match board with
  | [] => []
  | row :: rest =>
      match rest with
      | [] => map (fun x => [x]) row
      | _ :: _ => zip_cons row (transpose rest)
      end
  end.

(** ** Tile movements and move results *)

Module TileMove.
Record t : Set := mk
  { start : Z * Z;
    end_ : Z * Z;
    value : Z;
    merged : bool }.
End TileMove.

Module MoveResult.
Record t : Set := mk
  { board : list (list Z);
    score_gain : Z;
    moved : bool;
    moves : list TileMove.t;
    spawn : option (nat * nat * Z) }.
End MoveResult.

(** ** The move engine *)

(** [[(value, r, c) for c, value in enumerate(row) if value != 0]], with the
    enumeration counter [c] made explicit. *)
Fixpoint non_zero_from (r c : nat) (row : list Z) : list (Z * nat * nat) :=
  match row with
  | [] => []
  | value :: row' =>
      if value =? 0 then non_zero_from r (S c) row'
      else (value, r, c) :: non_zero_from r (S c) row'
  end.

Definition non_zero (r : nat) (row : list Z) : list (Z * nat * nat) :=
  non_zero_from r 0 row.

Definition cell (r c : nat) : Z * Z := (Z.of_nat r, Z.of_nat c).

(** The [while idx < len(non_zero)] loop of [_move_left].  [rest] is
    [non_zero[idx:]]; [target], [new_row], [total_gain] and [moves] are the
    loop's variables. *)
Fixpoint slide_loop (r : nat) (rest : list (Z * nat * nat)) (target : nat)
    (new_row : list Z) (total_gain : Z) (moves : list TileMove.t)
  : result (list Z * Z * list TileMove.t) :=
  match rest with
  | [] => Ok (new_row, total_gain, moves)
  | (value, sr, sc) :: rest1 =>
      let dest_col := target in
      let single :=
        let* new_row' := set_item new_row dest_col value in
        slide_loop r rest1 (S target) new_row' total_gain
          (moves ++ [TileMove.mk (cell sr sc) (cell r dest_col) value false]) in
      match rest1 with
      | (next_value, nr, nc) :: rest2 =>
          if next_value =? value then
            let merged_value := value * 2 in
            let* new_row' := set_item new_row dest_col merged_value in
            slide_loop r rest2 (S target) new_row' (total_gain + merged_value)
              (moves ++ [TileMove.mk (cell sr sc) (cell r dest_col) value true;
                         TileMove.mk (cell nr nc) (cell r dest_col) next_value true])
          else single
      | [] => single
      end
  end.

(** The [for r, row in enumerate(board)] loop of [_move_left]. *)
Fixpoint move_left_rows (r : nat) (rows new_board : list (list Z))
    (total_gain : Z) (moved : bool) (moves : list TileMove.t)
  : result MoveResult.t :=
  match rows with
  | [] => Ok (MoveResult.mk new_board total_gain moved moves None)
  | row :: rows' =>
      let* '(new_row, total_gain', moves') :=
        slide_loop r (non_zero r row) 0 (repeat 0 GRID_SIZE) total_gain moves in
      let moved' := if row_eqb new_row row then moved else true in
      move_left_rows (S r) rows' (new_board ++ [new_row]) total_gain' moved' moves'
  end.

Definition _move_left (board : list (list Z)) : result MoveResult.t :=
  move_left_rows 0 board [] 0 false [].

Definition _mirror_horizontal (move : TileMove.t) : TileMove.t :=
  TileMove.mk
    (fst (TileMove.start move), Z.of_nat GRID_SIZE - 1 - snd (TileMove.start move))
    (fst (TileMove.end_ move), Z.of_nat GRID_SIZE - 1 - snd (TileMove.end_ move))
    (TileMove.value move)
    (TileMove.merged move).

Definition _transpose_move (move : TileMove.t) : TileMove.t :=
  TileMove.mk
    (snd (TileMove.start move), fst (TileMove.start move))
    (snd (TileMove.end_ move), fst (TileMove.end_ move))
    (TileMove.value move)
    (TileMove.merged move).

(** [result.board = ...; result.moves = ...] on the result of [_move_left]. *)
Definition with_board_moves (result : MoveResult.t)
    (board : list (list Z)) (moves : list TileMove.t) : MoveResult.t :=
  MoveResult.mk board (MoveResult.score_gain result) (MoveResult.moved result)
    moves (MoveResult.spawn result).

Definition directions : list string :=
  ["LEFT"; "RIGHT"; "UP"; "DOWN"]%string.

Definition is_direction (direction : string) : bool :=
  existsb (String.eqb direction) directions.

(** The [if direction == "LEFT": ... else:  # DOWN] statement of [move]: the
    move engine applied to a board in a direction.  [move] reaches it only
    with one of the four tokens. *)
Definition move_result (board : list (list Z)) (direction : string)
  : result MoveResult.t :=
  if (direction =? "LEFT")%string then
    _move_left board
  else if (direction =? "RIGHT")%string then
    let flipped := map reverse board in
    let* result := _move_left flipped in
    Ok (with_board_moves result
          (map reverse (MoveResult.board result))
          (map _mirror_horizontal (MoveResult.moves result)))
  else if (direction =? "UP")%string then
    let transposed := transpose board in
    let* result := _move_left transposed in
    Ok (with_board_moves result
          (transpose (MoveResult.board result))
          (map _transpose_move (MoveResult.moves result)))
  else
    let transposed := transpose board in
    let flipped := map reverse transposed in
    let* result := _move_left flipped in
    let unflipped := map reverse (MoveResult.board result) in
    let mirrored := map _mirror_horizontal (MoveResult.moves result) in
    Ok (with_board_moves result
          (transpose unflipped)
          (map _transpose_move mirrored)).

(** ** The score file *)

(** A Python float as [json.load] can produce it. *)
Inductive pyfloat : Set :=
| FNaN
| FInf (negative : bool)
| FFinite (q : Q).

(** The values [json.load] returns; an object holds the items of the parsed
    dict, whose keys are distinct. *)
#[warnings="-register-all"]
Inductive json : Set :=
| JNull
| JBool (b : bool)
| JInt (n : Z)
| JFloat (f : pyfloat)
| JString (s : string)
| JArray (items : list json)
| JObject (items : list (string * json)).

(** What is found at [SCORE_STATE_FILE], by what [open] and [json.load] do
    with it. *)
Inductive file : Set :=
| Missing                (* os.path.exists is false *)
| Unreadable             (* open or read raises OSError *)
| Undecodable            (* not UTF-8: UnicodeDecodeError, a ValueError *)
| Malformed              (* json.load raises JSONDecodeError *)
| TooDeep                (* brackets nested beyond the recursion limit:
                            json.load raises RecursionError *)
| Document (data : json) (* the text of a JSON document that the parser
                            reads through, with the value it denotes *).

(** [sys.get_int_max_str_digits()], CPython's default: [int] refuses a
    decimal literal of more digits, and so does [json.load]. *)
Definition INT_MAX_STR_DIGITS : Z := 4300.

Definition convertible (n : Z) : bool := Z.abs n <? 10 ^ INT_MAX_STR_DIGITS.

(** Every integer literal of the document is within the limit. *)
Fixpoint loadable (data : json) : bool :=
  match data with
  | JInt n => convertible n
  | JArray items => forallb loadable items
  | JObject items =>
      forallb (fun item => match item with (_, v) => loadable v end) items
  | JNull | JBool _ | JFloat _ | JString _ => true
  end.

(** How the file answers an attempt to write it. *)
Inductive medium : Set :=
| Writable
| ReadOnly               (* open(..., "w") raises OSError, the file is untouched *)
| Full                   (* the file is truncated, then writing raises OSError *).

(** The file system as the ledger sees it.  [calls] lists the arguments of
    every call of [save_score_state], the latest first. *)
Record Disk : Set := mkDisk
  { content : file;
    device : medium;
    calls : list (Z * Z) }.

Section Ledger.

(** [int(s)] on a string: [None] is ValueError. *)
Variable int_of_str : string -> option Z.

(** [int(x)] on a value of a JSON document. *)
Definition py_int (x : json) : result Z :=
  match x with
  | JInt n => Ok n
  | JBool b => Ok (if b then 1 else 0)
  | JFloat (FFinite q) => Ok (Z.quot (Qnum q) (Z.pos (Qden q)))
  | JFloat (FInf _) => Raise OverflowError
  | JFloat FNaN => Raise ValueError
  | JString s =>
      match int_of_str s with
      | Some n => Ok n
      | None => Raise ValueError
      end
  | JNull | JArray _ | JObject _ => Raise TypeError
  end.

Fixpoint assoc (key : string) (items : list (string * json)) : option json :=
  match items with
  | [] => None
  | (k, v) :: items' => if (k =? key)%string then Some v else assoc key items'
  end.

(** [data.get(key, default)]: only a dict has the method. *)
Definition dict_get (data : json) (key : string) (default : json) : result json :=
  match data with
  | JObject items =>
      Ok (match assoc key items with Some v => v | None => default end)
  | _ => Raise AttributeError
  end.

(** [open(SCORE_STATE_FILE, "r")] followed by [json.load]; an integer
    literal beyond the limit makes [int] raise ValueError inside the parser. *)
Definition json_load (f : file) : result json :=
  match f with
  | Missing | Unreadable => Raise OSError
  | Undecodable => Raise ValueError
  | Malformed => Raise JSONDecodeError
  | TooDeep => Raise RecursionError
  | Document data => if loadable data then Ok data else Raise ValueError
  end.

(** The body of the [try] statement of [load_score_state]. *)
Definition load_body (f : file) : result (Z * Z) :=
  let* data := json_load f in
  let* best := dict_get data "best_score" (JInt 0) in
  let* best_score := py_int best in
  let* total := dict_get data "total_score" (JInt 0) in
  let* total_score := py_int total in
  Ok (best_score, total_score).

(** [except (OSError, json.JSONDecodeError, ValueError)]: RecursionError is
    a RuntimeError and passes. *)
Definition caught (e : exn) : bool :=
  match e with
  | OSError | JSONDecodeError | ValueError => true
  | _ => false
  end.

(** The dict [{"best_score": b, "total_score": t}] is the pair [(b, t)]. *)
Definition load_score_state (disk : Disk) : result (Z * Z) :=
  match content disk with
  | Missing => Ok (0, 0)
  | f =>
      match load_body f with
      | Ok state => Ok state
      | Raise e => if caught e then Ok (0, 0) else Raise e
      end
  end.

End Ledger.

(** [open(SCORE_STATE_FILE, "w")] followed by [json.dump], inside
    [try ... except OSError: pass].  The numbers are taken to print: on an
    integer of more than [INT_MAX_STR_DIGITS] digits [json.dump] raises
    ValueError, which the [except] clause lets through; that case is outside
    this model, and the statements on [_apply_score_gain] and [move] say which
    pair is handed to the save, not what the file holds afterwards. *)
Definition save_score_state (best_score total_score : Z) (disk : Disk) : Disk :=
  let written :=
    match device disk with
    | Writable =>
        Document (JObject [("best_score"%string, JInt best_score);
                           ("total_score"%string, JInt total_score)])
    | ReadOnly => content disk
    | Full => Malformed
    end in
  mkDisk written (device disk) ((best_score, total_score) :: calls disk).

(** ** The game state machine *)

Record Game2048 : Set := mkGame
  { board : list (list Z);
    score : Z;
    best_score : Z;
    total_score : Z;
    game_over : bool;
    won : bool;
    last_spawn : option (nat * nat * Z) }.

(** One use of the random generator by [_spawn_tile]: [pick] is the number
    [random.choice] draws, reduced below the length of its argument, and
    [four] is the outcome of [random.random() < 0.1]. *)
Record Draw : Set := mkDraw
  { pick : nat;
    four : bool }.

Definition get_cell (board : list (list Z)) (r c : nat) : result Z :=
  let* row := get_item board r in
  get_item row c.

(** [board[r][c] = value]: the row object is updated in place.  The rows of a
    board are distinct objects, every function building each row afresh. *)
Definition set_cell (board : list (list Z)) (r c : nat) (value : Z)
  : result (list (list Z)) :=
  let* row := get_item board r in
  let* row' := set_item row c value in
  set_item board r row'.

(** [[(r, c) for r in range(GRID_SIZE) for c in range(GRID_SIZE)]]. *)
Definition all_cells : list (nat * nat) :=
  flat_map (fun r => map (fun c => (r, c)) (seq 0 GRID_SIZE)) (seq 0 GRID_SIZE).

(** The [if self.board[r][c] == 0] filter of the comprehension. *)
Fixpoint empty_among (board : list (list Z)) (cells : list (nat * nat))
  : result (list (nat * nat)) :=
  match cells with
  | [] => Ok []
  | (r, c) :: cells' =>
      let* value := get_cell board r c in
      let* rest := empty_among board cells' in
      Ok (if value =? 0 then (r, c) :: rest else rest)
  end.

Definition with_board (self : Game2048) (b : list (list Z)) : Game2048 :=
  mkGame b (score self) (best_score self) (total_score self)
    (game_over self) (won self) (last_spawn self).

Definition _spawn_tile (rnd : Draw) (self : Game2048)
  : result (option (nat * nat * Z) * Game2048) :=
  let* empty_cells := empty_among (board self) all_cells in
  match empty_cells with
  | [] => Ok (None, self)
  | first :: _ =>
      let '(r, c) := nth (pick rnd mod length empty_cells)%nat empty_cells first in
      let value := if four rnd then 4 else 2 in
      let* board' := set_cell (board self) r c value in
      Ok (Some (r, c, value),
          mkGame board' (score self) (best_score self) (total_score self)
            (game_over self) (won self) (Some (r, c, value)))
  end.

Definition _apply_score_gain (gain : Z) (self : Game2048) (disk : Disk)
  : Game2048 * Disk :=
  if gain <=? 0 then (self, disk)
  else
    let total_score' := total_score self + gain in
    let best_score' :=
      if score self >? best_score self then score self else best_score self in
    (mkGame (board self) (score self) best_score' total_score'
       (game_over self) (won self) (last_spawn self),
     save_score_state best_score' total_score' disk).

(** The pairs of cells [_can_move] compares, in the order of its loops. *)
Definition row_pairs : list ((nat * nat) * (nat * nat)) :=
  flat_map (fun r => map (fun c => ((r, c), (r, S c))) (seq 0 (GRID_SIZE - 1)))
    (seq 0 GRID_SIZE).

Definition column_pairs : list ((nat * nat) * (nat * nat)) :=
  flat_map (fun c => map (fun r => ((r, c), (S r, c))) (seq 0 (GRID_SIZE - 1)))
    (seq 0 GRID_SIZE).

(** Whether some pair holds equal values, stopping at the first. *)
Fixpoint some_equal (board : list (list Z))
    (pairs : list ((nat * nat) * (nat * nat))) : result bool :=
  match pairs with
  | [] => Ok false
  | ((r1, c1), (r2, c2)) :: pairs' =>
      let* x := get_cell board r1 c1 in
      let* y := get_cell board r2 c2 in
      if x =? y then Ok true else some_equal board pairs'
  end.

Definition _can_move (self : Game2048) : result bool :=
  if existsb (fun row => existsb (fun x => x =? 0) row) (board self) then Ok true
  else
    let* in_rows := some_equal (board self) row_pairs in
    if in_rows then Ok true
    else some_equal (board self) column_pairs.

(** [move] returns the result object, which can be [None], leaves the game
    changed and can have saved the score file.  [rnd] is the one draw a spawn
    would use. *)
Definition move (direction : string) (rnd : Draw) (self : Game2048) (disk : Disk)
  : result (option MoveResult.t * Game2048 * Disk) :=
  if negb (is_direction direction) then Ok (None, self, disk)
  else
    let* result := move_result (board self) direction in
    if negb (MoveResult.moved result) then Ok (None, self, disk)
    else
      let self1 :=
        mkGame (MoveResult.board result) (score self + MoveResult.score_gain result)
          (best_score self) (total_score self) (game_over self) (won self)
          (last_spawn self) in
      let '(self2, disk') := _apply_score_gain (MoveResult.score_gain result) self1 disk in
      let self3 :=
        if existsb (fun row => existsb (fun cell => cell >=? 2048) row) (board self2)
        then mkGame (board self2) (score self2) (best_score self2) (total_score self2)
               (game_over self2) true (last_spawn self2)
        else self2 in
      let* '(spawned, self4) := _spawn_tile rnd self3 in
      let* can := _can_move self4 in
      let self5 :=
        mkGame (board self4) (score self4) (best_score self4) (total_score self4)
          (negb can) (won self4) (last_spawn self4) in
      (* result.board and self.board are one object: the returned result shows
         the spawned tile too *)
      Ok (Some (MoveResult.mk (board self5) (MoveResult.score_gain result)
                  (MoveResult.moved result) (MoveResult.moves result) spawned),
          self5, disk').

Definition reset (rnd1 rnd2 : Draw) (self : Game2048) : result Game2048 :=
  let self0 :=
    mkGame (repeat (repeat 0 GRID_SIZE) GRID_SIZE) 0 (best_score self)
      (total_score self) false false None in
  let* '(_, self1) := _spawn_tile rnd1 self0 in
  let* '(_, self2) := _spawn_tile rnd2 self1 in
  Ok self2.

(** A sequence of [move] commands, each with its draw; the outcomes are
    listed in order. *)
Fixpoint play (commands : list (string * Draw)) (self : Game2048) (disk : Disk)
  : result (list (option MoveResult.t) * Game2048 * Disk) :=
  match commands with
  | [] => Ok ([], self, disk)
  | (direction, rnd) :: commands' =>
      let* '(outcome, self', disk') := move direction rnd self disk in
      let* '(outcomes, self'', disk'') := play commands' self' disk' in
      Ok (outcome :: outcomes, self'', disk'')
  end.

(** The sum of a list of integers. *)
Definition zsum (l : list Z) : Z := fold_right Z.add 0 l.

(** ** Direct simulation of a slide

    A second description of the move engine, written from the rules of the
    game and not from the code: the tiles of every row or column are scanned
    from the edge they slide to, and the cells are written where they lie.
    No board is reversed or transposed. *)

Module BruteForce.

(** The cells of line [k] of a direction, first the cell at the edge the
    tiles slide to. *)
Definition line (direction : string) (k : nat) : list (Z * Z) :=
  let k := Z.of_nat k in
  if (direction =? "LEFT")%string then [(k, 0); (k, 1); (k, 2); (k, 3)]
  else if (direction =? "RIGHT")%string then [(k, 3); (k, 2); (k, 1); (k, 0)]
  else if (direction =? "UP")%string then [(0, k); (1, k); (2, k); (3, k)]
  else [(3, k); (2, k); (1, k); (0, k)].

Definition value_at (b : list (list Z)) (p : Z * Z) : Z :=
  nth (Z.to_nat (snd p)) (nth (Z.to_nat (fst p)) b []) 0.

(** The tiles among some cells: the non-zero values, each with its cell. *)
Definition tiles (b : list (list Z)) (cells : list (Z * Z))
  : list (Z * (Z * Z)) :=
  List.filter (fun t => negb (fst t =? 0)) (map (fun p => (value_at b p, p)) cells).

(** The scan of the tiles of a line; [cursor] lists the cells not written
    yet.  Two equal neighbours give one tile of the double value and its
    score, and the scan goes on after both. *)
Fixpoint slide (tiles : list (Z * (Z * Z))) (cursor : list (Z * Z))
  : list Z * Z * list TileMove.t :=
  match tiles, cursor with
  | (v, p) :: rest1, dest :: cursor' =>
      match rest1 with
      | (w, q) :: rest2 =>
          if v =? w then
            let '(out, gain, ms) := slide rest2 cursor' in
            (v * 2 :: out, v * 2 + gain,
             TileMove.mk p dest v true :: TileMove.mk q dest w true :: ms)
          else
            let '(out, gain, ms) := slide rest1 cursor' in
            (v :: out, gain, TileMove.mk p dest v false :: ms)
      | [] => ([v], 0, [TileMove.mk p dest v false])
      end
  | _, _ => ([], 0, [])
  end.

Definition slide_line (b : list (list Z)) (direction : string) (k : nat)
  : list Z * Z * list TileMove.t :=
  slide (tiles b (line direction k)) (line direction k).

(** The cells after the last tile are empty. *)
Definition pad (out : list Z) : list Z :=
  out ++ repeat 0 (GRID_SIZE - length out).

(** The value written to a cell, 0 for a cell never written. *)
Fixpoint written_at (written : list ((Z * Z) * Z)) (p : Z * Z) : Z :=
  match written with
  | [] => 0
  | (q, v) :: written' =>
      if (fst q =? fst p) && (snd q =? snd p) then v else written_at written' p
  end.

Fixpoint board_eqb (x y : list (list Z)) : bool :=
  match x, y with
  | [], [] => true
  | rx :: x', ry :: y' => row_eqb rx ry && board_eqb x' y'
  | _, _ => false
  end.

Definition indices : list nat := seq 0 GRID_SIZE.

(** The board whose lines hold [outs]: every line is written to its cells,
    then the cells are read row by row. *)
Definition assemble (direction : string) (outs : list (list Z))
  : list (list Z) :=
  let written :=
    flat_map (fun k => combine (line direction k) (nth k outs [])) indices in
  map (fun r =>
         map (fun c => written_at written (Z.of_nat r, Z.of_nat c)) indices)
    indices.

Definition slide_board (b : list (list Z)) (direction : string) : MoveResult.t :=
  let results := map (slide_line b direction) indices in
  let new_board :=
    assemble direction (map (fun res => pad (fst (fst res))) results) in
  MoveResult.mk new_board
    (zsum (map (fun res => snd (fst res)) results))
    (negb (board_eqb new_board b))
    (concat (map snd results))
    None.

End BruteForce.

(** ** Starting a game *)

(** [Game2048.__init__]: the ledger is loaded, the fields are set and the
    game is reset; [state.get(key, 0)] finds both keys, which
    [load_score_state] always returns. *)
Definition __init__ (int_of_str : string -> option Z) (rnd1 rnd2 : Draw)
    (disk : Disk) : result Game2048 :=
  let* state := load_score_state int_of_str disk in
  let self := mkGame [] 0 (fst state) (snd state) false false None in
  reset rnd1 rnd2 self.

Definition current_total (self : Game2048) : Z := total_score self.

(** ** The animation state of the application

    Of [GameApp], the fields and methods that do not draw: what is animated
    and when.  Times are the milliseconds of [pygame.time.get_ticks], which
    [run] stores in [current_time] at every frame. *)

Definition ANIMATION_DURATION_MS : Z := 140.
Definition SPAWN_ANIMATION_DURATION_MS : Z := 120.

(** A [pygame.Rect]: left, top, width, height. *)
Definition Rect : Set := (Z * Z * Z * Z)%type.

(** [move_animation] is the dict [{"moves": ..., "start_time": ...}] and
    [spawn_animation] the dict [{"cell": ..., "value": ..., "start_time": ...}],
    both [None] when nothing is animated. *)
Record GameApp : Set := mkApp
  { game : Game2048;
    move_animation : option (list TileMove.t * Z);
    spawn_animation : option ((nat * nat) * Z * Z);
    pending_spawn : option (nat * nat * Z);
    overlay_buttons : list (string * Rect);
    header_buttons : list (string * Rect);
    last_gain : Z;
    last_gain_time : Z;
    current_time : Z }.

Definition _record_gain (gain : Z) (app : GameApp) : GameApp :=
  if gain <=? 0 then app
  else
    mkApp (game app) (move_animation app) (spawn_animation app)
      (pending_spawn app) (overlay_buttons app) (header_buttons app)
      gain (current_time app) (current_time app).




(** The pending spawn becomes the spawn animation, starting now. *)
Definition start_pending (app : GameApp) (move_animation' : option (list TileMove.t * Z))
  : GameApp :=
  match pending_spawn app with
  | Some (r, c, value) =>
      mkApp (game app) move_animation'
        (Some ((r, c), value, current_time app)) None
        (overlay_buttons app) (header_buttons app)
        (last_gain app) (last_gain_time app) (current_time app)
  | None =>
      mkApp (game app) move_animation' (spawn_animation app) None
        (overlay_buttons app) (header_buttons app)
        (last_gain app) (last_gain_time app) (current_time app)
  end.

Definition _update_animations (app : GameApp) : GameApp :=
  let app1 :=
    match move_animation app with
    | Some (_, start_time) =>
        let elapsed := current_time app - start_time in
        if elapsed >=? ANIMATION_DURATION_MS then start_pending app None
        else app
    | None =>
        match pending_spawn app with
        | Some _ => start_pending app None
        | None => app
        end
    end in
  match spawn_animation app1 with
  | Some (_, _, start_time) =>
      let elapsed := current_time app1 - start_time in
      if elapsed >=? SPAWN_ANIMATION_DURATION_MS then
        mkApp (game app1) (move_animation app1) None (pending_spawn app1)
          (overlay_buttons app1) (header_buttons app1)
          (last_gain app1) (last_gain_time app1) (current_time app1)
      else app1
  | None => app1
  end.

(** [_gain_active] answers and can clear [last_gain]. *)
Definition _gain_active (app : GameApp) : bool * GameApp :=
  if last_gain app <=? 0 then (false, app)
  else if current_time app - last_gain_time app >? 1200 then
    (false,
     mkApp (game app) (move_animation app) (spawn_animation app)
       (pending_spawn app) (overlay_buttons app) (header_buttons app)
       0 (last_gain_time app) (current_time app))
  else (true, app).


(** * Vocabulary of the statements *)

(** The values of the tiles of a row, left to right. *)
Definition tile_values (row : list Z) : list Z :=
  List.filter (fun v => negb (v =? 0)) row.

(** The cells [slide_loop] writes, for the tile values it is given. *)
Fixpoint merge_row (vs : list Z) : list Z :=
  match vs with
  | [] => []
  | v :: vs1 =>
      match vs1 with
      | w :: vs2 => if w =? v then v * 2 :: merge_row vs2 else v :: merge_row vs1
      | [] => v :: merge_row vs1
      end
  end.

(** The score [slide_loop] adds. *)
Fixpoint merge_gain (vs : list Z) : Z :=
  match vs with
  | [] => 0
  | v :: vs1 =>
      match vs1 with
      | w :: vs2 => if w =? v then v * 2 + merge_gain vs2 else merge_gain vs1
      | [] => merge_gain vs1
      end
  end.

(** The movements [slide_loop] records. *)
Fixpoint merge_moves (r : nat) (nz : list (Z * nat * nat)) (target : nat)
  : list TileMove.t :=
  match nz with
  | [] => []
  | (v, sr, sc) :: nz1 =>
      match nz1 with
      | (w, nr, nc) :: nz2 =>
          if w =? v then
            TileMove.mk (cell sr sc) (cell r target) v true
              :: TileMove.mk (cell nr nc) (cell r target) w true
              :: merge_moves r nz2 (S target)
          else
            TileMove.mk (cell sr sc) (cell r target) v false
              :: merge_moves r nz1 (S target)
      | [] =>
          TileMove.mk (cell sr sc) (cell r target) v false
            :: merge_moves r nz1 (S target)
      end
  end.

Definition values (nz : list (Z * nat * nat)) : list Z :=
  map (fun t => fst (fst t)) nz.

Definition row_out (row : list Z) : list Z :=
  let out := merge_row (tile_values row) in
  out ++ repeat 0 (GRID_SIZE - length out).

Definition row_gain (row : list Z) : Z := merge_gain (tile_values row).

Definition row_moves (r : nat) (row : list Z) : list TileMove.t :=
  merge_moves r (non_zero r row) 0.

Definition changed (row : list Z) : bool := negb (row_eqb (row_out row) row).

Fixpoint rows_moves (r : nat) (rows : list (list Z)) : list TileMove.t :=
  match rows with
  | [] => []
  | row :: rows' => row_moves r row ++ rows_moves (S r) rows'
  end.

Definition rows4 (b : list (list Z)) : Prop :=
  Forall (fun row => length row = GRID_SIZE) b.

Definition grid4 (b : list (list Z)) : Prop :=
  length b = GRID_SIZE /\ rows4 b.

(** The result of [move_result] when the board is turned by [pre], slid to
    the left and turned back by [post], the movements by [turn]. *)
Definition turned (pre post : list (list Z) -> list (list Z))
    (turn : TileMove.t -> TileMove.t) (b : list (list Z)) : MoveResult.t :=
  MoveResult.mk (post (map row_out (pre b)))
    (zsum (map row_gain (pre b)))
    (existsb changed (pre b))
    (map turn (rows_moves 0 (pre b)))
    None.

Definition pre_of (direction : string) (b : list (list Z)) : list (list Z) :=
  if (direction =? "LEFT")%string then b
  else if (direction =? "RIGHT")%string then map reverse b
  else if (direction =? "UP")%string then transpose b
  else map reverse (transpose b).

Definition post_of (direction : string) (b : list (list Z)) : list (list Z) :=
  if (direction =? "LEFT")%string then b
  else if (direction =? "RIGHT")%string then map reverse b
  else if (direction =? "UP")%string then transpose b
  else transpose (map reverse b).

Definition turn_of (direction : string) (m : TileMove.t) : TileMove.t :=
  if (direction =? "LEFT")%string then m
  else if (direction =? "RIGHT")%string then _mirror_horizontal m
  else if (direction =? "UP")%string then _transpose_move m
  else _transpose_move (_mirror_horizontal m).

(** Two boards hold the same value in every cell. *)
Definition same_cells (x y : list (list Z)) : Prop :=
  forall r c : nat,
    (r < GRID_SIZE)%nat -> (c < GRID_SIZE)%nat -> get_cell x r c = get_cell y r c.

(** The movements of one row, grouped by the cell they end in. *)
Fixpoint merge_blocks (r : nat) (nz : list (Z * nat * nat)) (target : nat)
  : list (list TileMove.t) :=
  match nz with
  | [] => []
  | (v, sr, sc) :: nz1 =>
      match nz1 with
      | (w, nr, nc) :: nz2 =>
          if w =? v then
            [TileMove.mk (cell sr sc) (cell r target) v true;
             TileMove.mk (cell nr nc) (cell r target) w true]
              :: merge_blocks r nz2 (S target)
          else
            [TileMove.mk (cell sr sc) (cell r target) v false]
              :: merge_blocks r nz1 (S target)
      | [] =>
          [TileMove.mk (cell sr sc) (cell r target) v false]
            :: merge_blocks r nz1 (S target)
      end
  end.

(** The tiles that end in column [j] of row [r], where the new row holds [x]:
    one tile that keeps its value, or two tiles of one value that give its
    double. *)
Definition arrive (r j : nat) (x : Z) (block : list TileMove.t) : Prop :=
  match block with
  | [m] =>
      TileMove.merged m = false /\ TileMove.end_ m = cell r j
      /\ x = TileMove.value m
  | [m1; m2] =>
      TileMove.merged m1 = true /\ TileMove.merged m2 = true
      /\ TileMove.end_ m1 = cell r j /\ TileMove.end_ m2 = cell r j
      /\ TileMove.value m2 = TileMove.value m1
      /\ x = TileMove.value m1 * 2
  | _ => False
  end.

(** The score a block brings. *)
Definition block_gain (block : list TileMove.t) : Z :=
  match block with
  | [m1; m2] => TileMove.value m1 * 2
  | _ => 0
  end.

Definition source (m : TileMove.t) : (Z * Z) * Z :=
  (TileMove.start m, TileMove.value m).

Definition tile_source (t : Z * nat * nat) : (Z * Z) * Z :=
  let '(v, sr, sc) := t in (cell sr sc, v).

(** A movement with both its cells sent through [f]. *)
Definition coords (f : Z * Z -> Z * Z) (m : TileMove.t) : TileMove.t :=
  TileMove.mk (f (TileMove.start m)) (f (TileMove.end_ m))
    (TileMove.value m) (TileMove.merged m).

Definition mirror (p : Z * Z) : Z * Z := (fst p, Z.of_nat GRID_SIZE - 1 - snd p).

Definition swap (p : Z * Z) : Z * Z := (snd p, fst p).

(** Where a cell of the turned board lies on the board itself. *)
Definition place_of (direction : string) (p : Z * Z) : Z * Z :=
  if (direction =? "LEFT")%string then p
  else if (direction =? "RIGHT")%string then mirror p
  else if (direction =? "UP")%string then swap p
  else swap (mirror p).

Definition tile_at (f : Z * Z -> Z * Z) (t : Z * nat * nat) : Z * (Z * Z) :=
  let '(v, sr, sc) := t in (v, f (cell sr sc)).

Definition cell_value (b : list (list Z)) (p : nat * nat) : Z :=
  nth (snd p) (nth (fst p) b []) 0.

Definition in_grid (p : nat * nat) : Prop :=
  (fst p < GRID_SIZE)%nat /\ (snd p < GRID_SIZE)%nat.

(** The sum of the cells of a board. *)
Definition grid_sum (b : list (list Z)) : Z := zsum (map zsum b).

(** What a spawn does to a board: nothing when no cell is empty, else one
    empty cell gets a 2 or a 4 and no other cell changes. *)
Definition spawned (b : list (list Z)) (sp : option (nat * nat * Z))
    (b' : list (list Z)) : Prop :=
  match sp with
  | None =>
      b' = b
      /\ forall r c : nat,
          (r < GRID_SIZE)%nat -> (c < GRID_SIZE)%nat -> get_cell b r c <> Ok 0
  | Some (r, c, v) =>
      (r < GRID_SIZE)%nat /\ (c < GRID_SIZE)%nat
      /\ get_cell b r c = Ok 0
      /\ (v = 2 \/ v = 4)
      /\ get_cell b' r c = Ok v
      /\ forall r' c' : nat,
          (r' < GRID_SIZE)%nat -> (c' < GRID_SIZE)%nat ->
          (r', c') <> (r, c) ->
          get_cell b' r' c' = get_cell b r' c'
  end.

(** Every cell is occupied and no two neighbours in a row or in a column
    hold the same value. *)
Definition stuck (b : list (list Z)) : Prop :=
  (forall r c : nat,
      (r < GRID_SIZE)%nat -> (c < GRID_SIZE)%nat -> get_cell b r c <> Ok 0)
  /\ (forall r c : nat,
         (r < GRID_SIZE)%nat -> (c < GRID_SIZE - 1)%nat ->
         get_cell b r c <> get_cell b r (S c))
  /\ (forall r c : nat,
         (r < GRID_SIZE - 1)%nat -> (c < GRID_SIZE)%nat ->
         get_cell b r c <> get_cell b (S r) c).

Definition equal_at (b : list (list Z)) (pq : (nat * nat) * (nat * nat)) : bool :=
  cell_value b (fst pq) =? cell_value b (snd pq).

(** What [_can_move] answers on a board of four by four. *)
Definition can_moveb (b : list (list Z)) : bool :=
  existsb (fun row => existsb (fun x => x =? 0) row) b
  || existsb (equal_at b) row_pairs
  || existsb (equal_at b) column_pairs.

Definition engine (direction : string) (b : list (list Z)) : MoveResult.t :=
  turned (pre_of direction) (post_of direction) (turn_of direction) b.






(** A row whose tiles merge into at most four cells. *)
Definition fits (row : list Z) : Prop :=
  (length (merge_row (tile_values row)) <= GRID_SIZE)%nat.

(** The tiles of [row], a row of index [r], that lie from column [t] on:
    each with its value, the columns growing. *)
Fixpoint tiles_from (r t : nat) (row : list Z) (nz : list (Z * nat * nat))
  : Prop :=
  match nz with
  | [] => True
  | (v, sr, sc) :: rest =>
      sr = r /\ (t <= sc < length row)%nat /\ nth sc row 0 = v /\ v <> 0
      /\ tiles_from r (S t) row rest
  end.

(** A movement within a row, from a tile to a column not to its right. *)
Definition row_move (r : nat) (row : list Z) (m : TileMove.t) : Prop :=
  exists sc t : nat,
    TileMove.start m = cell r sc /\ TileMove.end_ m = cell r t
    /\ (t <= sc < length row)%nat
    /\ TileMove.value m = nth sc row 0 /\ TileMove.value m <> 0.

(** A movement of a slide of the board [b]: it starts at a tile of [b],
    carries its value, stays on the board and in its line, and goes in the
    direction or stays. *)
Definition slides (direction : string) (b : list (list Z)) (m : TileMove.t)
  : Prop :=
  let s := TileMove.start m in
  let e := TileMove.end_ m in
  (0 <= fst s <= 3 /\ 0 <= snd s <= 3 /\ 0 <= fst e <= 3 /\ 0 <= snd e <= 3)
  /\ get_cell b (Z.to_nat (fst s)) (Z.to_nat (snd s)) = Ok (TileMove.value m)
  /\ TileMove.value m <> 0
  /\ if (direction =? "LEFT")%string then fst e = fst s /\ snd e <= snd s
     else if (direction =? "RIGHT")%string then fst e = fst s /\ snd s <= snd e
     else if (direction =? "UP")%string then snd e = snd s /\ fst e <= fst s
     else snd e = snd s /\ fst s <= fst e.




(** [self.current_time = pygame.time.get_ticks()], the first step of a frame
    of [run]. *)
Definition at_time (now : Z) (app : GameApp) : GameApp :=
  mkApp (game app) (move_animation app) (spawn_animation app)
    (pending_spawn app) (overlay_buttons app) (header_buttons app)
    (last_gain app) (last_gain_time app) now.

(** The length of the shortest row of a board, 0 for the empty board. *)
Fixpoint shortest (b : list (list Z)) : nat :=
  match b with
  | [] => 0
  | row :: rest =>
      match rest with
      | [] => length row
      | _ :: _ => Nat.min (length row) (shortest rest)
      end
  end.

(** Column [c] of a board, a missing cell read as 0. *)
Definition column (c : nat) (b : list (list Z)) : list Z :=
  map (fun row => nth c row 0) b.

(** * Properties *)

(** ** What one row becomes *)

(** Induction that follows the two ways the loop advances. *)
Lemma list_ind2 {A : Type} (P : list A -> Prop) :
  P [] ->
  (forall x, P [x]) ->
  (forall x y l, P l -> P (y :: l) -> P (x :: y :: l)) ->
  forall l, P l.
Proof.
  intros Hnil Hone Hstep l.
  enough (H : P l /\ forall x, P (x :: l)) by apply H.
  induction l as [|y l [IH1 IH2]]; split; auto.
Qed.

Lemma values_non_zero_from (r c : nat) (row : list Z) :
  values (non_zero_from r c row) = tile_values row.
Proof.
  revert c. induction row as [|v row IH]; intros c; simpl; [reflexivity|].
  destruct (v =? 0); simpl; rewrite IH; reflexivity.
Qed.

Lemma merge_row_length (vs : list Z) : (length (merge_row vs) <= length vs)%nat.
Proof.
  induction vs as [| x | x y l IH1 IH2] using list_ind2; simpl; auto.
  destruct (y =? x); simpl in *; lia.
Qed.

Lemma tile_values_length (row : list Z) :
  (length (tile_values row) <= length row)%nat.
Proof. apply List.filter_length_le. Qed.

Lemma row_out_length (row : list Z) :
  length row = GRID_SIZE -> length (row_out row) = GRID_SIZE.
Proof.
  intros H. unfold row_out.
  pose proof (merge_row_length (tile_values row)).
  pose proof (tile_values_length row).
  rewrite length_app, repeat_length. lia.
Qed.

Lemma repeat_lookup {A : Type} (x : A) (n i : nat) :
  (i < n)%nat -> repeat x n !! i = Some x.
Proof.
  revert i. induction n as [|n IH]; intros [|i] H; simpl; try lia; auto.
  apply IH. lia.
Qed.

Lemma set_item_next (done : list Z) (k : nat) (x : Z) :
  set_item (done ++ repeat 0 (S k)) (length done) x
  = Ok ((done ++ [x]) ++ repeat 0 k).
Proof.
  unfold set_item.
  rewrite length_app, repeat_length.
  destruct (Nat.ltb_spec (length done) (length done + S k)) as [_|?]; [|lia].
  rewrite insert_app_r_alt by lia.
  rewrite Nat.sub_diag. simpl. rewrite <- app_assoc. reflexivity.
Qed.

(** The two ways the loop advances when two tiles are left. *)
Lemma slide_loop_two (r : nat) (v w : Z) (sr sc nr nc : nat)
    (nz : list (Z * nat * nat)) (target : nat) (new_row : list Z) (g : Z)
    (ms : list TileMove.t) :
  slide_loop r ((v, sr, sc) :: (w, nr, nc) :: nz) target new_row g ms
  = if w =? v then
      let* new_row' := set_item new_row target (v * 2) in
      slide_loop r nz (S target) new_row' (g + v * 2)
        (ms ++ [TileMove.mk (cell sr sc) (cell r target) v true;
                TileMove.mk (cell nr nc) (cell r target) w true])
    else
      let* new_row' := set_item new_row target v in
      slide_loop r ((w, nr, nc) :: nz) (S target) new_row' g
        (ms ++ [TileMove.mk (cell sr sc) (cell r target) v false]).
Proof. reflexivity. Qed.

Lemma merge_row_two (v w : Z) (vs : list Z) :
  merge_row (v :: w :: vs)
  = if w =? v then v * 2 :: merge_row vs else v :: merge_row (w :: vs).
Proof. reflexivity. Qed.

Lemma merge_gain_two (v w : Z) (vs : list Z) :
  merge_gain (v :: w :: vs)
  = if w =? v then v * 2 + merge_gain vs else merge_gain (w :: vs).
Proof. reflexivity. Qed.

Lemma merge_moves_two (r : nat) (v w : Z) (sr sc nr nc : nat)
    (nz : list (Z * nat * nat)) (target : nat) :
  merge_moves r ((v, sr, sc) :: (w, nr, nc) :: nz) target
  = if w =? v then
      TileMove.mk (cell sr sc) (cell r target) v true
        :: TileMove.mk (cell nr nc) (cell r target) w true
        :: merge_moves r nz (S target)
    else
      TileMove.mk (cell sr sc) (cell r target) v false
        :: merge_moves r ((w, nr, nc) :: nz) (S target).
Proof. reflexivity. Qed.

(** The loop in closed form: the cells from [target] on are overwritten with
    the merged values, the gain and the movements are added to what was
    there. *)
Lemma slide_loop_spec (r : nat) (nz : list (Z * nat * nat)) :
  forall (done : list Z) (k : nat) (g : Z) (ms : list TileMove.t),
    (length (merge_row (values nz)) <= k)%nat ->
    slide_loop r nz (length done) (done ++ repeat 0 k) g ms
    = Ok (done ++ merge_row (values nz)
            ++ repeat 0 (k - length (merge_row (values nz))),
          g + merge_gain (values nz),
          ms ++ merge_moves r nz (length done)).
Proof.
  induction nz as [| [[v sr] sc] | [[v sr] sc] [[w nr] nc] nz IH1 IH2]
    using list_ind2; intros done k g ms Hk.
  - simpl. rewrite Nat.sub_0_r, Z.add_0_r, app_nil_r. reflexivity.
  - simpl in *. destruct k as [|k]; [lia|].
    rewrite set_item_next. simpl.
    rewrite <- app_assoc, Z.add_0_r. simpl. rewrite Nat.sub_0_r. reflexivity.
  - rewrite slide_loop_two, merge_moves_two.
    change (values ((v, sr, sc) :: (w, nr, nc) :: nz))
      with (v :: w :: values nz) in *.
    rewrite merge_row_two in *. rewrite merge_gain_two.
    change (w :: values nz) with (values ((w, nr, nc) :: nz)) in *.
    destruct (w =? v) eqn:E; cbn [length] in Hk; (destruct k as [|k]; [lia|]);
      rewrite set_item_next; cbn [bind].
    + replace (S (length done)) with (length (done ++ [v * 2]))
        by (rewrite length_app; simpl; lia).
      rewrite IH1 by lia.
      rewrite <- !app_assoc. simpl.
      rewrite Z.add_assoc. reflexivity.
    + replace (S (length done)) with (length (done ++ [v]))
        by (rewrite length_app; simpl; lia).
      rewrite IH2 by lia.
      rewrite <- !app_assoc. simpl. reflexivity.
Qed.

Lemma slide_row_spec (r : nat) (row : list Z) (g : Z) (ms : list TileMove.t) :
  length row = GRID_SIZE ->
  slide_loop r (non_zero r row) 0 (repeat 0 GRID_SIZE) g ms
  = Ok (row_out row, g + row_gain row, ms ++ row_moves r row).
Proof.
  intros H.
  pose proof (merge_row_length (tile_values row)).
  pose proof (tile_values_length row).
  pose proof (slide_loop_spec r (non_zero r row) [] GRID_SIZE g ms) as S.
  unfold non_zero in *. rewrite values_non_zero_from in S.
  apply S. lia.
Qed.

(** [_move_left] in closed form on rows of four cells. *)
Lemma move_left_rows_spec (rows : list (list Z)) :
  forall (r : nat) (nb : list (list Z)) (g : Z) (mv : bool) (ms : list TileMove.t),
    rows4 rows ->
    move_left_rows r rows nb g mv ms
    = Ok (MoveResult.mk (nb ++ map row_out rows)
            (g + zsum (map row_gain rows))
            (mv || existsb changed rows)
            (ms ++ rows_moves r rows)
            None).
Proof.
  induction rows as [|row rows IH]; intros r nb g mv ms H.
  - simpl. rewrite !app_nil_r, Z.add_0_r, orb_false_r. reflexivity.
  - inversion H as [|? ? Hrow Hrows]; subst.
    cbn [move_left_rows]. rewrite slide_row_spec by assumption. cbn [bind].
    rewrite IH by assumption. simpl.
    rewrite <- !app_assoc, Z.add_assoc. simpl. unfold changed at 2.
    destruct (row_eqb (row_out row) row); simpl;
      [reflexivity | rewrite orb_true_r; reflexivity].
Qed.

Lemma move_left_spec (b : list (list Z)) :
  rows4 b ->
  _move_left b
  = Ok (MoveResult.mk (map row_out b) (zsum (map row_gain b))
          (existsb changed b) (rows_moves 0 b) None).
Proof.
  intros H. unfold _move_left. rewrite move_left_rows_spec by assumption.
  reflexivity.
Qed.

(** ** Boards of four rows of four cells *)

Lemma grid4_inv (b : list (list Z)) :
  grid4 b ->
  exists a0 a1 a2 a3 b0 b1 b2 b3 c0 c1 c2 c3 d0 d1 d2 d3,
    b = [[a0; a1; a2; a3]; [b0; b1; b2; b3]; [c0; c1; c2; c3]; [d0; d1; d2; d3]].
Proof.
  intros [Hlen Hrows].
  destruct b as [|ra [|rb [|rc [|rd [|? ?]]]]]; try discriminate Hlen.
  unfold rows4 in Hrows. rewrite !Forall_cons in Hrows.
  destruct Hrows as (Ha & Hb & Hc & Hd & _).
  destruct ra as [|? [|? [|? [|? [|? ?]]]]]; try discriminate Ha.
  destruct rb as [|? [|? [|? [|? [|? ?]]]]]; try discriminate Hb.
  destruct rc as [|? [|? [|? [|? [|? ?]]]]]; try discriminate Hc.
  destruct rd as [|? [|? [|? [|? [|? ?]]]]]; try discriminate Hd.
  repeat eexists.
Qed.

Ltac grid4_cells H :=
  let a0 := fresh "a0" in let a1 := fresh "a1" in
  let a2 := fresh "a2" in let a3 := fresh "a3" in
  let b0 := fresh "b0" in let b1 := fresh "b1" in
  let b2 := fresh "b2" in let b3 := fresh "b3" in
  let c0 := fresh "c0" in let c1 := fresh "c1" in
  let c2 := fresh "c2" in let c3 := fresh "c3" in
  let d0 := fresh "d0" in let d1 := fresh "d1" in
  let d2 := fresh "d2" in let d3 := fresh "d3" in
  let E := fresh "E" in
  destruct (grid4_inv _ H)
    as (a0 & a1 & a2 & a3 & b0 & b1 & b2 & b3 & c0 & c1 & c2 & c3
        & d0 & d1 & d2 & d3 & E);
  subst.

Lemma grid4_cons4 (ra rb rc rd : list Z) :
  length ra = GRID_SIZE -> length rb = GRID_SIZE ->
  length rc = GRID_SIZE -> length rd = GRID_SIZE ->
  grid4 [ra; rb; rc; rd].
Proof. intros; split; [reflexivity | repeat constructor; assumption]. Qed.

Lemma grid4_rows4 (b : list (list Z)) : grid4 b -> rows4 b.
Proof. intros [_ H]; exact H. Qed.

Lemma grid4_map_reverse (b : list (list Z)) : grid4 b -> grid4 (map reverse b).
Proof.
  intros H. grid4_cells H. apply grid4_cons4; reflexivity.
Qed.

Lemma grid4_transpose (b : list (list Z)) : grid4 b -> grid4 (transpose b).
Proof.
  intros H. grid4_cells H. apply grid4_cons4; reflexivity.
Qed.

Lemma grid4_map_row_out (b : list (list Z)) : grid4 b -> grid4 (map row_out b).
Proof.
  intros [Hlen Hrows]. split.
  - rewrite length_map. exact Hlen.
  - unfold rows4 in *. rewrite Forall_map.
    eapply Forall_impl; [exact Hrows|]. intros row. apply row_out_length.
Qed.

Lemma transpose_involutive (b : list (list Z)) :
  grid4 b -> transpose (transpose b) = b.
Proof. intros H. grid4_cells H. reflexivity. Qed.

Lemma map_reverse_involutive (b : list (list Z)) :
  map reverse (map reverse b) = b.
Proof.
  induction b as [|row b IH]; simpl; [reflexivity|].
  unfold reverse at 1 2. rewrite rev_involutive, IH. reflexivity.
Qed.

(** ** The engine in closed form *)

Lemma directions_inv (direction : string) :
  In direction directions ->
  direction = "LEFT"%string \/ direction = "RIGHT"%string
  \/ direction = "UP"%string \/ direction = "DOWN"%string.
Proof. simpl. intuition. Qed.

Lemma grid4_pre_of (direction : string) (b : list (list Z)) :
  grid4 b -> grid4 (pre_of direction b).
Proof.
  intros H. unfold pre_of.
  repeat match goal with |- context [if ?c then _ else _] => destruct c end;
    auto using grid4_map_reverse, grid4_transpose.
Qed.

Lemma move_result_spec (direction : string) (b : list (list Z)) :
  grid4 b ->
  move_result b direction
  = Ok (turned (pre_of direction) (post_of direction) (turn_of direction) b).
Proof.
  intros H. pose proof (grid4_pre_of direction b H) as Hpre.
  apply grid4_rows4 in Hpre.
  unfold move_result, turned, pre_of, post_of, turn_of in *.
  repeat match goal with |- context [if ?c then _ else _] => destruct c end;
    rewrite move_left_spec by assumption; cbn [bind];
    unfold with_board_moves; cbn; rewrite ?map_id, ?map_map; reflexivity.
Qed.

Lemma post_pre_of (direction : string) (b : list (list Z)) :
  grid4 b -> post_of direction (pre_of direction b) = b.
Proof.
  intros H. unfold pre_of, post_of.
  repeat match goal with |- context [if ?c then _ else _] => destruct c end;
    rewrite ?map_reverse_involutive; auto using transpose_involutive.
Qed.

Lemma pre_post_of (direction : string) (b : list (list Z)) :
  grid4 b -> pre_of direction (post_of direction b) = b.
Proof.
  intros H. unfold pre_of, post_of.
  repeat match goal with |- context [if ?c then _ else _] => destruct c end;
    rewrite ?transpose_involutive, ?map_reverse_involutive;
    auto using transpose_involutive, grid4_map_reverse.
Qed.

(** ** Moved or not *)

Lemma row_eqb_eq (a b : list Z) : row_eqb a b = true <-> a = b.
Proof.
  revert b. induction a as [|x a IH]; intros [|y b]; simpl;
    try (split; [discriminate | congruence]); [tauto|].
  rewrite andb_true_iff, Z.eqb_eq, IH. split.
  - intros [-> ->]; reflexivity.
  - intros E; injection E; auto.
Qed.

Lemma unchanged_rows (b : list (list Z)) :
  existsb changed b = false <-> map row_out b = b.
Proof.
  induction b as [|row b IH]; simpl; [tauto|].
  rewrite orb_false_iff, IH. unfold changed.
  rewrite negb_false_iff, row_eqb_eq. split.
  - intros [-> ->]; reflexivity.
  - intros E; injection E; auto.
Qed.

Lemma moved_false_iff (direction : string) (b : list (list Z)) :
  grid4 b ->
  existsb changed (pre_of direction b) = false
  <-> post_of direction (map row_out (pre_of direction b)) = b.
Proof.
  intros H. rewrite unchanged_rows. split.
  - intros ->. apply post_pre_of, H.
  - intros E.
    rewrite <- E at 2.
    rewrite pre_post_of; [reflexivity|].
    apply grid4_map_row_out, grid4_pre_of, H.
Qed.

Lemma same_cells_eq (x y : list (list Z)) :
  grid4 x -> grid4 y -> (same_cells x y <-> x = y).
Proof.
  intros Hx Hy. split; [|intros ->; intros r c _ _; reflexivity].
  intros H. grid4_cells Hx. grid4_cells Hy.
  unfold same_cells, GRID_SIZE in H.
  pose proof (H 0%nat 0%nat) as H00. pose proof (H 0%nat 1%nat) as H01.
  pose proof (H 0%nat 2%nat) as H02. pose proof (H 0%nat 3%nat) as H03.
  pose proof (H 1%nat 0%nat) as H10. pose proof (H 1%nat 1%nat) as H11.
  pose proof (H 1%nat 2%nat) as H12. pose proof (H 1%nat 3%nat) as H13.
  pose proof (H 2%nat 0%nat) as H20. pose proof (H 2%nat 1%nat) as H21.
  pose proof (H 2%nat 2%nat) as H22. pose proof (H 2%nat 3%nat) as H23.
  pose proof (H 3%nat 0%nat) as H30. pose proof (H 3%nat 1%nat) as H31.
  pose proof (H 3%nat 2%nat) as H32. pose proof (H 3%nat 3%nat) as H33.
  clear H. cbn in *.
  repeat match goal with
         | H : (?n < ?m)%nat -> _ |- _ =>
             let L := fresh in assert (L : (n < m)%nat) by lia;
             specialize (H L); clear L
         end.
  congruence.
Qed.

Lemma grid4_turned_board (direction : string) (b : list (list Z)) :
  grid4 b ->
  grid4 (post_of direction (map row_out (pre_of direction b))).
Proof.
  intros H.
  pose proof (grid4_map_row_out _ (grid4_pre_of direction b H)) as G.
  revert G. generalize (map row_out (pre_of direction b)). intros x G.
  unfold post_of.
  repeat match goal with |- context [if ?c then _ else _] => destruct c end;
    auto using grid4_map_reverse, grid4_transpose.
Qed.

(** C1. For every board of four rows of four cells (whatever the integers)
    and each of the four directions, the move engine returns a result, and
    this result reports [moved = false] exactly when its board holds in every
    cell the value the input board holds there. *)
Theorem C1_moved_false_iff_same_cells (b : list (list Z)) (direction : string) :
  grid4 b ->
  In direction directions ->
  exists res : MoveResult.t,
    move_result b direction = Ok res
    /\ (MoveResult.moved res = false <-> same_cells (MoveResult.board res) b).
Proof.
  intros H _. eexists. split; [apply move_result_spec, H|].
  cbn [turned MoveResult.moved MoveResult.board].
  rewrite same_cells_eq by auto using grid4_turned_board.
  apply moved_false_iff, H.
Qed.

Lemma C1_witness :
  exists res : MoveResult.t,
    move_result [[2; 0; 0; 0]; [0; 4; 0; 0]; [0; 0; 0; 0]; [2; 0; 0; 8]] "UP" = Ok res
    /\ (MoveResult.moved res = false
        <-> same_cells (MoveResult.board res)
              [[2; 0; 0; 0]; [0; 4; 0; 0]; [0; 0; 0; 0]; [2; 0; 0; 8]]).
Proof.
  apply C1_moved_false_iff_same_cells.
  - apply grid4_cons4; reflexivity.
  - simpl. auto.
Defined.

(** ** Merging: once per tile, leftmost pair first *)

Lemma merge_blocks_two (r : nat) (v w : Z) (sr sc nr nc : nat)
    (nz : list (Z * nat * nat)) (target : nat) :
  merge_blocks r ((v, sr, sc) :: (w, nr, nc) :: nz) target
  = if w =? v then
      [TileMove.mk (cell sr sc) (cell r target) v true;
       TileMove.mk (cell nr nc) (cell r target) w true]
        :: merge_blocks r nz (S target)
    else
      [TileMove.mk (cell sr sc) (cell r target) v false]
        :: merge_blocks r ((w, nr, nc) :: nz) (S target).
Proof. reflexivity. Qed.

Lemma merge_moves_blocks (r : nat) (nz : list (Z * nat * nat)) :
  forall target, merge_moves r nz target = concat (merge_blocks r nz target).
Proof.
  induction nz as [| [[v sr] sc] | [[v sr] sc] [[w nr] nc] nz IH1 IH2]
    using list_ind2; intros target; try reflexivity.
  rewrite merge_moves_two, merge_blocks_two.
  destruct (w =? v); cbn [concat app]; [rewrite IH1 | rewrite IH2]; reflexivity.
Qed.

Lemma merge_moves_sources (r : nat) (nz : list (Z * nat * nat)) :
  forall target, map source (merge_moves r nz target) = map tile_source nz.
Proof.
  induction nz as [| [[v sr] sc] | [[v sr] sc] [[w nr] nc] nz IH1 IH2]
    using list_ind2; intros target; try reflexivity.
  rewrite merge_moves_two.
  destruct (w =? v); cbn [map]; [rewrite IH1 | rewrite IH2]; reflexivity.
Qed.

Lemma merge_blocks_length (r : nat) (nz : list (Z * nat * nat)) :
  forall target,
    length (merge_blocks r nz target) = length (merge_row (values nz)).
Proof.
  induction nz as [| [[v sr] sc] | [[v sr] sc] [[w nr] nc] nz IH1 IH2]
    using list_ind2; intros target; try reflexivity.
  rewrite merge_blocks_two.
  change (values ((v, sr, sc) :: (w, nr, nc) :: nz)) with (v :: w :: values nz).
  rewrite merge_row_two.
  change (w :: values nz) with (values ((w, nr, nc) :: nz)).
  destruct (w =? v); cbn [length]; [rewrite IH1 | rewrite IH2]; reflexivity.
Qed.

Lemma merge_blocks_arrive (r : nat) (nz : list (Z * nat * nat)) :
  forall (target j : nat) (block : list TileMove.t),
    merge_blocks r nz target !! j = Some block ->
    exists x : Z,
      merge_row (values nz) !! j = Some x /\ arrive r (target + j) x block.
Proof.
  induction nz as [| [[v sr] sc] | [[v sr] sc] [[w nr] nc] nz IH1 IH2]
    using list_ind2; intros target j block H.
  - destruct j; discriminate H.
  - destruct j as [|[|j]]; try discriminate H.
    injection H as <-. exists v. rewrite Nat.add_0_r. simpl. auto.
  - rewrite merge_blocks_two in H.
    change (values ((v, sr, sc) :: (w, nr, nc) :: nz)) with (v :: w :: values nz).
    rewrite merge_row_two.
    change (w :: values nz) with (values ((w, nr, nc) :: nz)).
    destruct (w =? v) eqn:E; destruct j as [|j]; cbn [lookup list_lookup] in *.
    + injection H as <-. exists (v * 2). rewrite Nat.add_0_r. simpl.
      apply Z.eqb_eq in E. auto 10.
    + replace (target + S j)%nat with (S target + j)%nat by lia.
      apply IH1, H.
    + injection H as <-. exists v. rewrite Nat.add_0_r. simpl. auto.
    + replace (target + S j)%nat with (S target + j)%nat by lia.
      apply IH2, H.
Qed.

Lemma merge_blocks_gain (r : nat) (nz : list (Z * nat * nat)) :
  forall target,
    zsum (map block_gain (merge_blocks r nz target)) = merge_gain (values nz).
Proof.
  induction nz as [| [[v sr] sc] | [[v sr] sc] [[w nr] nc] nz IH1 IH2]
    using list_ind2; intros target; try reflexivity.
  rewrite merge_blocks_two.
  change (values ((v, sr, sc) :: (w, nr, nc) :: nz)) with (v :: w :: values nz).
  rewrite merge_gain_two.
  change (w :: values nz) with (values ((w, nr, nc) :: nz)).
  destruct (w =? v); cbn [map zsum fold_right block_gain TileMove.value];
    [rewrite <- (IH1 (S target)) | rewrite <- (IH2 (S target))];
    unfold zsum; lia.
Qed.

(** A tile that was not merged is followed by a tile of another value. *)
Lemma merge_blocks_leftmost (r : nat) (nz : list (Z * nat * nat)) :
  forall (target j : nat) (m m' : TileMove.t) (rest : list TileMove.t),
    merge_blocks r nz target !! j = Some [m] ->
    merge_blocks r nz target !! S j = Some (m' :: rest) ->
    TileMove.value m' <> TileMove.value m.
Proof.
  induction nz as [| [[v sr] sc] | [[v sr] sc] [[w nr] nc] nz IH1 IH2]
    using list_ind2; intros target j m m' rest H H'.
  - destruct j; discriminate H.
  - destruct j as [|[|j]]; discriminate H'.
  - rewrite merge_blocks_two in H, H'.
    destruct (w =? v) eqn:E; destruct j as [|j]; cbn [lookup list_lookup] in *.
    + discriminate H.
    + eapply IH1; eassumption.
    + injection H as <-. apply Z.eqb_neq in E.
      destruct nz as [|[[u ur] uc] nz].
      * injection H' as <- <-. exact E.
      * rewrite merge_blocks_two in H'.
        destruct (u =? w); injection H' as <- <-; exact E.
    + eapply IH2; eassumption.
Qed.

(** C2. Sliding [[2,2,2,0]] to the left gives [[4,2,0,0]] and the score 4,
    sliding [[4,0,4,4]] gives [[8,4,0,0]] and the score 8.  In general, for a
    row of four cells: every tile of the row is moved exactly once, with the
    value it had in the row; the movements fall into consecutive blocks, one
    per column, of one unmerged tile or of two merged tiles of one value whose
    double is written, so no cell receives a tile made in this turn; the cells
    after the last block are empty; the score gained is the sum of the
    doubles; and a tile left unmerged has a right neighbour of another value,
    so of three equal tiles the left two merge. *)
Theorem C2_no_chain_merge_leftmost_first :
  _move_left [[2; 2; 2; 0]]
  = Ok (MoveResult.mk [[4; 2; 0; 0]] 4 true
          [TileMove.mk (0, 0) (0, 0) 2 true;
           TileMove.mk (0, 1) (0, 0) 2 true;
           TileMove.mk (0, 2) (0, 1) 2 false] None)
  /\ _move_left [[4; 0; 4; 4]]
     = Ok (MoveResult.mk [[8; 4; 0; 0]] 8 true
             [TileMove.mk (0, 0) (0, 0) 4 true;
              TileMove.mk (0, 2) (0, 0) 4 true;
              TileMove.mk (0, 3) (0, 1) 4 false] None)
  /\ forall (r : nat) (row : list Z),
      length row = GRID_SIZE ->
      exists (new_row : list Z) (gain : Z) (blocks : list (list TileMove.t)),
        slide_loop r (non_zero r row) 0 (repeat 0 GRID_SIZE) 0 []
        = Ok (new_row, gain, concat blocks)
        /\ length new_row = GRID_SIZE
        /\ map source (concat blocks) = map tile_source (non_zero r row)
        /\ (forall (j : nat) (block : list TileMove.t),
               blocks !! j = Some block ->
               exists x : Z, new_row !! j = Some x /\ arrive r j x block)
        /\ (forall j : nat,
               (length blocks <= j < GRID_SIZE)%nat -> new_row !! j = Some 0)
        /\ gain = zsum (map block_gain blocks)
        /\ (forall (j : nat) (m m' : TileMove.t) (rest : list TileMove.t),
               blocks !! j = Some [m] ->
               blocks !! S j = Some (m' :: rest) ->
               TileMove.value m' <> TileMove.value m).
Proof.
  split; [reflexivity|]. split; [reflexivity|].
  intros r row Hlen.
  exists (row_out row), (row_gain row), (merge_blocks r (non_zero r row) 0).
  pose proof (merge_blocks_length r (non_zero r row) 0) as Hblocks.
  pose proof (values_non_zero_from r 0 row) as Hvalues.
  fold (non_zero r row) in Hvalues. rewrite Hvalues in Hblocks.
  repeat split.
  - rewrite slide_row_spec by assumption.
    unfold row_moves. rewrite merge_moves_blocks. reflexivity.
  - apply row_out_length, Hlen.
  - rewrite <- merge_moves_blocks. apply merge_moves_sources.
  - intros j block H.
    destruct (merge_blocks_arrive _ _ _ _ _ H) as (x & Hx & Ha).
    exists x. split; [|exact Ha].
    rewrite Hvalues in Hx.
    unfold row_out. apply lookup_app_l_Some, Hx.
  - intros j [Hj1 Hj2]. unfold row_out.
    rewrite Hblocks in Hj1.
    pose proof (merge_row_length (tile_values row)).
    pose proof (tile_values_length row).
    rewrite lookup_app_r by lia.
    apply repeat_lookup. lia.
  - unfold row_gain. symmetry.
    rewrite <- Hvalues. apply merge_blocks_gain.
  - apply merge_blocks_leftmost.
Qed.

Lemma C2_witness :
  exists (new_row : list Z) (gain : Z) (blocks : list (list TileMove.t)),
    slide_loop 1 (non_zero 1 [2; 2; 4; 4]) 0 (repeat 0 GRID_SIZE) 0 []
    = Ok (new_row, gain, concat blocks)
    /\ length new_row = GRID_SIZE
    /\ map source (concat blocks) = map tile_source (non_zero 1 [2; 2; 4; 4])
    /\ (forall (j : nat) (block : list TileMove.t),
           blocks !! j = Some block ->
           exists x : Z, new_row !! j = Some x /\ arrive 1 j x block)
    /\ (forall j : nat,
           (length blocks <= j < GRID_SIZE)%nat -> new_row !! j = Some 0)
    /\ gain = zsum (map block_gain blocks)
    /\ (forall (j : nat) (m m' : TileMove.t) (rest : list TileMove.t),
           blocks !! j = Some [m] ->
           blocks !! S j = Some (m' :: rest) ->
           TileMove.value m' <> TileMove.value m).
Proof.
  apply (proj2 (proj2 C2_no_chain_merge_leftmost_first) 1%nat [2; 2; 4; 4]).
  reflexivity.
Defined.

(** ** The four directions against the direct simulation *)

Lemma turn_of_coords (direction : string) (m : TileMove.t) :
  turn_of direction m = coords (place_of direction) m.
Proof.
  destruct m. unfold turn_of, place_of, coords.
  repeat match goal with |- context [if ?c then _ else _] => destruct c end;
    reflexivity.
Qed.

Lemma bf_slide_two (v w : Z) (p q dest : Z * Z)
    (rest : list (Z * (Z * Z))) (cursor : list (Z * Z)) :
  BruteForce.slide ((v, p) :: (w, q) :: rest) (dest :: cursor)
  = if v =? w then
      let '(out, gain, ms) := BruteForce.slide rest cursor in
      (v * 2 :: out, v * 2 + gain,
       TileMove.mk p dest v true :: TileMove.mk q dest w true :: ms)
    else
      let '(out, gain, ms) := BruteForce.slide ((w, q) :: rest) cursor in
      (v :: out, gain, TileMove.mk p dest v false :: ms).
Proof. reflexivity. Qed.

(** The scan of the simulation and the loop of the code do the same to the
    same tiles, the code in the cells of the turned board. *)
Lemma bf_slide_spec (f : Z * Z -> Z * Z) (r : nat) (nz : list (Z * nat * nat)) :
  forall target n : nat,
    (length nz <= n)%nat ->
    BruteForce.slide (map (tile_at f) nz)
      (map (fun j => f (cell r j)) (seq target n))
    = (merge_row (values nz), merge_gain (values nz),
       map (coords f) (merge_moves r nz target)).
Proof.
  induction nz as [| [[v sr] sc] | [[v sr] sc] [[w nr] nc] nz IH1 IH2]
    using list_ind2; intros target n Hn.
  - reflexivity.
  - destruct n as [|n]; [simpl in Hn; lia|]. reflexivity.
  - destruct n as [|n]; [simpl in Hn; lia|].
    cbn [map seq tile_at]. rewrite bf_slide_two.
    rewrite merge_moves_two.
    change (values ((v, sr, sc) :: (w, nr, nc) :: nz)) with (v :: w :: values nz).
    rewrite merge_row_two, merge_gain_two.
    change (w :: values nz) with (values ((w, nr, nc) :: nz)).
    rewrite (Z.eqb_sym v w).
    destruct (w =? v).
    + rewrite (IH1 (S target) n) by (simpl in Hn; lia). reflexivity.
    + change ((w, f (cell nr nc)) :: map (tile_at f) nz)
        with (map (tile_at f) ((w, nr, nc) :: nz)).
      rewrite (IH2 (S target) n) by (simpl in *; lia). reflexivity.
Qed.

Lemma tiles_non_zero (f : Z * Z -> Z * Z) (r : nat) (row : list Z) :
  forall c : nat,
    List.filter (fun t : Z * (Z * Z) => negb (fst t =? 0))
      (combine row (map (fun j => f (cell r j)) (seq c (length row))))
    = map (tile_at f) (non_zero_from r c row).
Proof.
  induction row as [|v row IH]; intros c; [reflexivity|].
  cbn [length seq map combine List.filter fst non_zero_from].
  destruct (v =? 0); cbn [negb map tile_at]; rewrite IH; reflexivity.
Qed.

Lemma non_zero_from_length (r : nat) (row : list Z) :
  forall c : nat, (length (non_zero_from r c row) <= length row)%nat.
Proof.
  induction row as [|v row IH]; intros c; simpl; [lia|].
  specialize (IH (S c)). destruct (v =? 0); simpl; lia.
Qed.

(** One line of the simulation, when its cells are the cells of row [r] of
    the turned board. *)
Lemma bf_line (f : Z * Z -> Z * Z) (r : nat) (row : list Z)
    (cells : list (Z * Z)) (found : list (Z * (Z * Z))) :
  cells = map (fun j => f (cell r j)) (seq 0 (length row)) ->
  found = combine row cells ->
  BruteForce.slide (List.filter (fun t => negb (fst t =? 0)) found) cells
  = (merge_row (tile_values row), row_gain row,
     map (coords f) (row_moves r row)).
Proof.
  intros -> ->. rewrite tiles_non_zero.
  rewrite bf_slide_spec by apply non_zero_from_length.
  rewrite values_non_zero_from. reflexivity.
Qed.

Lemma bf_slide_line (b : list (list Z)) (direction : string) (k : nat) :
  grid4 b ->
  In direction directions ->
  (k < GRID_SIZE)%nat ->
  BruteForce.slide_line b direction k
  = (merge_row (tile_values (nth k (pre_of direction b) [])),
     row_gain (nth k (pre_of direction b) []),
     map (turn_of direction) (row_moves k (nth k (pre_of direction b) []))).
Proof.
  intros H Hd Hk. grid4_cells H.
  rewrite (map_ext _ _ (turn_of_coords direction)).
  unfold BruteForce.slide_line, BruteForce.tiles, GRID_SIZE in *.
  destruct (directions_inv _ Hd) as [->|[->|[->| ->]]];
    destruct k as [|[|[|[|k]]]]; try lia;
    apply bf_line; reflexivity.
Qed.

Lemma bf_assemble (direction : string) (x : list (list Z)) :
  grid4 x ->
  In direction directions ->
  BruteForce.assemble direction x = post_of direction x.
Proof.
  intros H Hd. grid4_cells H.
  destruct (directions_inv _ Hd) as [->|[->|[->| ->]]]; reflexivity.
Qed.

Lemma board_eqb_eq (x y : list (list Z)) :
  BruteForce.board_eqb x y = true <-> x = y.
Proof.
  revert y. induction x as [|rx x IH]; intros [|ry y]; simpl;
    try (split; [discriminate | congruence]); [tauto|].
  rewrite andb_true_iff, row_eqb_eq, IH. split.
  - intros [-> ->]; reflexivity.
  - intros E; injection E; auto.
Qed.

Lemma moved_board_eqb (direction : string) (b : list (list Z)) :
  grid4 b ->
  existsb changed (pre_of direction b)
  = negb (BruteForce.board_eqb
            (post_of direction (map row_out (pre_of direction b))) b).
Proof.
  intros H. pose proof (moved_false_iff direction b H) as M.
  pose proof (board_eqb_eq (post_of direction (map row_out (pre_of direction b))) b) as B.
  destruct (existsb changed (pre_of direction b));
    destruct (BruteForce.board_eqb _ b); simpl; try reflexivity.
  - destruct B as [B _]. destruct M as [_ M]. specialize (M (B eq_refl)). discriminate M.
  - destruct B as [_ B]. destruct M as [M _]. specialize (B (M eq_refl)). discriminate B.
Qed.

Lemma rows4_inv4 (x : list (list Z)) :
  grid4 x -> exists l0 l1 l2 l3 : list Z,
    x = [l0; l1; l2; l3]
    /\ length l0 = GRID_SIZE /\ length l1 = GRID_SIZE
    /\ length l2 = GRID_SIZE /\ length l3 = GRID_SIZE.
Proof.
  intros [Hlen Hrows].
  destruct x as [|l0 [|l1 [|l2 [|l3 [|? ?]]]]]; try discriminate Hlen.
  unfold rows4 in Hrows. rewrite !Forall_cons in Hrows.
  exists l0, l1, l2, l3. tauto.
Qed.

Lemma bf_slide_board (b : list (list Z)) (direction : string) :
  grid4 b ->
  In direction directions ->
  BruteForce.slide_board b direction
  = turned (pre_of direction) (post_of direction) (turn_of direction) b.
Proof.
  intros H Hd.
  unfold BruteForce.slide_board, turned, BruteForce.indices.
  change (seq 0 GRID_SIZE) with [0; 1; 2; 3]%nat. cbn [map].
  rewrite !bf_slide_line by (auto; unfold GRID_SIZE; lia).
  cbn [fst snd].
  rewrite (moved_board_eqb direction b H).
  destruct (rows4_inv4 _ (grid4_pre_of direction b H))
    as (l0 & l1 & l2 & l3 & -> & H0 & H1 & H2 & H3).
  cbn [nth map].
  change (BruteForce.pad (merge_row (tile_values l0))) with (row_out l0).
  change (BruteForce.pad (merge_row (tile_values l1))) with (row_out l1).
  change (BruteForce.pad (merge_row (tile_values l2))) with (row_out l2).
  change (BruteForce.pad (merge_row (tile_values l3))) with (row_out l3).
  rewrite bf_assemble
    by (auto; apply grid4_cons4; apply row_out_length; assumption).
  cbn [concat rows_moves]. rewrite !map_app, !app_nil_r. reflexivity.
Qed.

(** C3. For every board of four rows of four cells: the result of DOWN is
    the result of sliding to the left the transposed board with its rows
    reversed, its rows reversed back and transposed back, every movement
    mirrored and then transposed; and in each of the four directions the
    result of the engine (board, score, moved flag and movements) is the
    result of the direct simulation of the slide in that direction. *)
Theorem C3_directions_agree_with_simulation (b : list (list Z)) :
  grid4 b ->
  move_result b "DOWN"
  = (let* res := _move_left (map reverse (transpose b)) in
     Ok (MoveResult.mk
           (transpose (map reverse (MoveResult.board res)))
           (MoveResult.score_gain res)
           (MoveResult.moved res)
           (map _transpose_move (map _mirror_horizontal (MoveResult.moves res)))
           (MoveResult.spawn res)))
  /\ forall direction : string,
      In direction directions ->
      move_result b direction = Ok (BruteForce.slide_board b direction).
Proof.
  intros H. split; [reflexivity|].
  intros direction Hd.
  rewrite bf_slide_board by assumption.
  apply move_result_spec, H.
Qed.

Lemma C3_witness :
  move_result [[2; 2; 0; 4]; [0; 4; 4; 4]; [2; 0; 0; 2]; [8; 8; 8; 8]] "DOWN"
  = (let* res :=
       _move_left
         (map reverse
            (transpose [[2; 2; 0; 4]; [0; 4; 4; 4]; [2; 0; 0; 2]; [8; 8; 8; 8]])) in
     Ok (MoveResult.mk
           (transpose (map reverse (MoveResult.board res)))
           (MoveResult.score_gain res)
           (MoveResult.moved res)
           (map _transpose_move (map _mirror_horizontal (MoveResult.moves res)))
           (MoveResult.spawn res)))
  /\ forall direction : string,
      In direction directions ->
      move_result [[2; 2; 0; 4]; [0; 4; 4; 4]; [2; 0; 0; 2]; [8; 8; 8; 8]] direction
      = Ok (BruteForce.slide_board
              [[2; 2; 0; 4]; [0; 4; 4; 4]; [2; 0; 0; 2]; [8; 8; 8; 8]] direction).
Proof.
  apply C3_directions_agree_with_simulation.
  apply grid4_cons4; reflexivity.
Defined.

(** ** Cells of a board of four by four *)

Ltac small_index i :=
  destruct i as [|[|[|[|i]]]]; [| | | |unfold GRID_SIZE in *; simpl in *; lia].

Lemma get_cell_value (b : list (list Z)) (r c : nat) :
  grid4 b -> (r < GRID_SIZE)%nat -> (c < GRID_SIZE)%nat ->
  get_cell b r c = Ok (cell_value b (r, c)).
Proof.
  intros H Hr Hc. grid4_cells H. small_index r; small_index c; reflexivity.
Qed.


Lemma all_cells_in_grid : Forall in_grid all_cells.
Proof. repeat constructor; unfold GRID_SIZE; simpl; lia. Qed.

Lemma empty_among_spec (b : list (list Z)) (cells : list (nat * nat)) :
  grid4 b ->
  Forall in_grid cells ->
  empty_among b cells = Ok (List.filter (fun p => cell_value b p =? 0) cells).
Proof.
  intros H. induction cells as [|[r c] cells IH]; intros Hin; [reflexivity|].
  apply Forall_cons in Hin. destruct Hin as [[Hr Hc] Hin].
  cbn [empty_among]. rewrite get_cell_value by assumption. cbn [bind].
  rewrite IH by assumption. cbn [bind List.filter].
  destruct (cell_value b (r, c) =? 0); reflexivity.
Qed.

(** ** Spawning *)

Lemma set_cell_spec (b : list (list Z)) (r c : nat) (v : Z) :
  grid4 b -> (r < GRID_SIZE)%nat -> (c < GRID_SIZE)%nat ->
  exists b' : list (list Z),
    set_cell b r c v = Ok b'
    /\ grid4 b'
    /\ get_cell b' r c = Ok v
    /\ (forall r' c' : nat,
           (r' < GRID_SIZE)%nat -> (c' < GRID_SIZE)%nat ->
           (r', c') <> (r, c) ->
           get_cell b' r' c' = get_cell b r' c')
    /\ grid_sum b' = grid_sum b - cell_value b (r, c) + v.
Proof.
  intros H Hr Hc. grid4_cells H.
  small_index r; small_index c;
    (eexists; split; [reflexivity|];
     split; [apply grid4_cons4; reflexivity|];
     split; [reflexivity|];
     split; [|unfold grid_sum, zsum, cell_value; simpl; lia];
     intros r' c' Hr' Hc' Hne;
     small_index r'; small_index c'; try reflexivity; congruence).
Qed.

Lemma empty_cells_none (b : list (list Z)) :
  grid4 b ->
  List.filter (fun p => cell_value b p =? 0) all_cells = [] ->
  forall r c : nat,
    (r < GRID_SIZE)%nat -> (c < GRID_SIZE)%nat -> get_cell b r c <> Ok 0.
Proof.
  intros H E r c Hr Hc. rewrite get_cell_value by assumption.
  intros Hz. injection Hz as Hz.
  assert (Hin : In (r, c) (List.filter (fun p => cell_value b p =? 0) all_cells)).
  { apply filter_In. split; [|rewrite Hz; reflexivity].
    clear -Hr Hc. small_index r; small_index c; simpl; tauto. }
  rewrite E in Hin. destruct Hin.
Qed.

(** [_spawn_tile] on a board of four by four: it returns, the board changes
    as [spawned] says, [last_spawn] records the tile and nothing else
    changes. *)
Lemma spawn_tile_spec (rnd : Draw) (self : Game2048) :
  grid4 (board self) ->
  exists (sp : option (nat * nat * Z)) (b' : list (list Z)),
    _spawn_tile rnd self
    = Ok (sp, mkGame b' (score self) (best_score self) (total_score self)
                (game_over self) (won self)
                (match sp with Some _ => sp | None => last_spawn self end))
    /\ grid4 b'
    /\ spawned (board self) sp b'
    /\ grid_sum b'
       = grid_sum (board self) + match sp with Some (_, _, v) => v | None => 0 end.
Proof.
  intros H. unfold _spawn_tile.
  rewrite empty_among_spec by auto using all_cells_in_grid. cbn [bind].
  destruct (List.filter (fun p => cell_value (board self) p =? 0) all_cells)
    as [|first rest] eqn:E.
  - exists None, (board self). destruct self; simpl in *.
    split; [reflexivity|]. split; [exact H|].
    split; [split; [reflexivity | apply empty_cells_none; assumption]|]. lia.
  - set (chosen := nth (pick rnd mod length (first :: rest))
                     (first :: rest) first).
    assert (Hin : In chosen (first :: rest)).
    { apply nth_In. apply Nat.mod_upper_bound. discriminate. }
    rewrite <- E in Hin. apply filter_In in Hin. destruct Hin as [Hall Hz].
    destruct chosen as [r c].
    assert (Hg : in_grid (r, c)).
    { pose proof all_cells_in_grid as A. rewrite Forall_forall in A.
      apply A. apply list_elem_of_In. exact Hall. }
    destruct Hg as [Hr Hc]. simpl in Hr, Hc.
    apply Z.eqb_eq in Hz.
    destruct (set_cell_spec (board self) r c (if four rnd then 4 else 2) H Hr Hc)
      as (b' & Hset & Hg' & Hget & Hothers & Hsum).
    rewrite Hset. cbn [bind].
    exists (Some (r, c, if four rnd then 4 else 2)), b'.
    split; [reflexivity|]. split; [exact Hg'|].
    split; [|rewrite Hsum, Hz; lia].
    split; [exact Hr|]. split; [exact Hc|].
    split; [rewrite get_cell_value by assumption; rewrite Hz; reflexivity|].
    split; [destruct (four rnd); auto|].
    split; [exact Hget | exact Hothers].
Qed.

(** C10. On a board of four by four with an empty cell, [_spawn_tile] returns
    the row, the column and the value of one tile: the cell was empty, the
    value is 2 or 4, the cell now holds it and every other cell holds what it
    held.  On a board without an empty cell it returns [None] and the game,
    board included, is as before. *)
Theorem C10_spawn_frame (rnd : Draw) (self : Game2048) :
  grid4 (board self) ->
  ((exists r c : nat,
       (r < GRID_SIZE)%nat /\ (c < GRID_SIZE)%nat
       /\ get_cell (board self) r c = Ok 0) ->
   exists (r c : nat) (v : Z) (self' : Game2048),
     _spawn_tile rnd self = Ok (Some (r, c, v), self')
     /\ (r < GRID_SIZE)%nat /\ (c < GRID_SIZE)%nat
     /\ get_cell (board self) r c = Ok 0
     /\ (v = 2 \/ v = 4)
     /\ get_cell (board self') r c = Ok v
     /\ (forall r' c' : nat,
            (r' < GRID_SIZE)%nat -> (c' < GRID_SIZE)%nat ->
            (r', c') <> (r, c) ->
            get_cell (board self') r' c' = get_cell (board self) r' c')
     /\ grid4 (board self'))
  /\ ((forall r c : nat,
          (r < GRID_SIZE)%nat -> (c < GRID_SIZE)%nat ->
          get_cell (board self) r c <> Ok 0) ->
      _spawn_tile rnd self = Ok (None, self)).
Proof.
  intros H.
  destruct (spawn_tile_spec rnd self H) as (sp & b' & E & Hg & Hsp & _).
  split.
  - intros (r0 & c0 & Hr0 & Hc0 & Hz).
    destruct sp as [[[r c] v]|].
    + destruct Hsp as (Hr & Hc & Hzero & Hv & Hget & Hothers).
      exists r, c, v. eexists. split; [exact E|]. simpl. auto 10.
    + destruct Hsp as [_ Hfull]. destruct (Hfull r0 c0 Hr0 Hc0 Hz).
  - intros Hfull.
    destruct sp as [[[r c] v]|].
    + destruct Hsp as (Hr & Hc & Hzero & _). destruct (Hfull r c Hr Hc Hzero).
    + destruct Hsp as [-> _]. rewrite E. destruct self; reflexivity.
Qed.

Lemma C10_witness :
  (exists (r c : nat) (v : Z) (self' : Game2048),
      _spawn_tile (mkDraw 5 true)
        (mkGame [[2; 0; 4; 0]; [0; 0; 2; 2]; [4; 8; 0; 16]; [0; 2; 4; 8]]
           0 0 0 false false None)
      = Ok (Some (r, c, v), self')
      /\ (r < GRID_SIZE)%nat /\ (c < GRID_SIZE)%nat
      /\ get_cell [[2; 0; 4; 0]; [0; 0; 2; 2]; [4; 8; 0; 16]; [0; 2; 4; 8]] r c
         = Ok 0
      /\ (v = 2 \/ v = 4)
      /\ get_cell (board self') r c = Ok v
      /\ (forall r' c' : nat,
             (r' < GRID_SIZE)%nat -> (c' < GRID_SIZE)%nat ->
             (r', c') <> (r, c) ->
             get_cell (board self') r' c'
             = get_cell [[2; 0; 4; 0]; [0; 0; 2; 2]; [4; 8; 0; 16]; [0; 2; 4; 8]]
                 r' c')
      /\ grid4 (board self'))
  /\ _spawn_tile (mkDraw 5 true)
       (mkGame [[2; 4; 2; 4]; [4; 2; 4; 2]; [2; 4; 2; 4]; [4; 2; 4; 2]]
          0 0 0 false false None)
     = Ok (None,
           mkGame [[2; 4; 2; 4]; [4; 2; 4; 2]; [2; 4; 2; 4]; [4; 2; 4; 2]]
             0 0 0 false false None).
Proof.
  split.
  - apply (C10_spawn_frame (mkDraw 5 true)
             (mkGame [[2; 0; 4; 0]; [0; 0; 2; 2]; [4; 8; 0; 16]; [0; 2; 4; 8]]
                0 0 0 false false None)).
    + apply grid4_cons4; reflexivity.
    + exists 0%nat, 1%nat. unfold GRID_SIZE. repeat split; lia.
  - apply (C10_spawn_frame (mkDraw 5 true)
             (mkGame [[2; 4; 2; 4]; [4; 2; 4; 2]; [2; 4; 2; 4]; [4; 2; 4; 2]]
                0 0 0 false false None)).
    + apply grid4_cons4; reflexivity.
    + intros r c Hr Hc. small_index r; small_index c; discriminate.
Defined.

(** ** No move left *)

Lemma some_equal_spec (b : list (list Z))
    (pairs : list ((nat * nat) * (nat * nat))) :
  grid4 b ->
  Forall (fun pq => in_grid (fst pq) /\ in_grid (snd pq)) pairs ->
  some_equal b pairs = Ok (existsb (equal_at b) pairs).
Proof.
  intros H. induction pairs as [|[[r1 c1] [r2 c2]] pairs IH]; intros Hin;
    [reflexivity|].
  apply Forall_cons in Hin. destruct Hin as [[[? ?] [? ?]] Hin].
  cbn [some_equal]. rewrite !get_cell_value by assumption. cbn [bind existsb].
  unfold equal_at at 1. cbn [fst snd].
  destruct (cell_value b (r1, c1) =? cell_value b (r2, c2)); [reflexivity|].
  apply IH, Hin.
Qed.

Lemma row_pairs_in_grid :
  Forall (fun pq => in_grid (fst pq) /\ in_grid (snd pq)) row_pairs.
Proof. repeat constructor; unfold GRID_SIZE; simpl; lia. Qed.

Lemma column_pairs_in_grid :
  Forall (fun pq => in_grid (fst pq) /\ in_grid (snd pq)) column_pairs.
Proof. repeat constructor; unfold GRID_SIZE; simpl; lia. Qed.

Lemma can_move_spec (self : Game2048) :
  grid4 (board self) -> _can_move self = Ok (can_moveb (board self)).
Proof.
  intros H. unfold _can_move, can_moveb.
  rewrite !some_equal_spec
    by auto using row_pairs_in_grid, column_pairs_in_grid.
  cbn [bind].
  destruct (existsb _ (board self)); [reflexivity|].
  destruct (existsb _ row_pairs); reflexivity.
Qed.

Lemma ok_neq (x y : Z) : @Ok Z x <> Ok y <-> (x =? y) = false.
Proof.
  rewrite Z.eqb_neq. split; intros H E; apply H; congruence.
Qed.

(** The instance of a fact about all cells at the cell [(r, c)], when the
    cell is one the fact speaks of. *)
Ltac cell_fact H r c :=
  let F := fresh "F" in
  try (assert (F := H r c ltac:(unfold GRID_SIZE; simpl; lia)
                          ltac:(unfold GRID_SIZE; simpl; lia));
       cbn in F).

Ltac cell_facts H :=
  cell_fact H 0%nat 0%nat; cell_fact H 0%nat 1%nat;
  cell_fact H 0%nat 2%nat; cell_fact H 0%nat 3%nat;
  cell_fact H 1%nat 0%nat; cell_fact H 1%nat 1%nat;
  cell_fact H 1%nat 2%nat; cell_fact H 1%nat 3%nat;
  cell_fact H 2%nat 0%nat; cell_fact H 2%nat 1%nat;
  cell_fact H 2%nat 2%nat; cell_fact H 2%nat 3%nat;
  cell_fact H 3%nat 0%nat; cell_fact H 3%nat 1%nat;
  cell_fact H 3%nat 2%nat; cell_fact H 3%nat 3%nat.

Lemma stuck_iff (b : list (list Z)) :
  grid4 b -> (can_moveb b = false <-> stuck b).
Proof.
  intros H. grid4_cells H.
  unfold can_moveb, stuck, row_pairs, column_pairs, GRID_SIZE.
  cbn [existsb flat_map map seq Nat.sub app].
  unfold equal_at, cell_value. cbn [fst snd nth].
  rewrite !orb_false_iff. rewrite <- !ok_neq. split.
  - intros Hall. decompose [and] Hall. clear Hall.
    split; [|split]; intros r c Hr Hc;
      small_index r; small_index c; cbn; first [assumption | simpl in *; lia].
  - intros (Hz & Hh & Hv).
    cell_facts Hz. cell_facts Hh. cell_facts Hv.
    repeat split; solve [assumption | congruence].
Qed.

(** ** One command *)

Lemma is_direction_In (direction : string) :
  is_direction direction = true <-> In direction directions.
Proof.
  unfold is_direction. rewrite existsb_exists. split.
  - intros (d & Hd & E). apply String.eqb_eq in E. subst. exact Hd.
  - intros Hd. exists direction. split; [exact Hd | apply String.eqb_refl].
Qed.

Lemma move_not_direction (direction : string) (rnd : Draw) (self : Game2048)
    (disk : Disk) :
  ~ In direction directions ->
  move direction rnd self disk = Ok (None, self, disk).
Proof.
  intros H. unfold move.
  destruct (is_direction direction) eqn:E; [|reflexivity].
  apply is_direction_In in E. contradiction.
Qed.

Lemma move_not_moved (direction : string) (rnd : Draw) (self : Game2048)
    (disk : Disk) (res : MoveResult.t) :
  move_result (board self) direction = Ok res ->
  MoveResult.moved res = false ->
  move direction rnd self disk = Ok (None, self, disk).
Proof.
  intros E Hm. unfold move.
  destruct (is_direction direction); [|reflexivity].
  cbn [negb]. rewrite E. cbn [bind]. rewrite Hm. reflexivity.
Qed.



(** ** Sums *)

Lemma zsum_cons (x : Z) (l : list Z) : zsum (x :: l) = x + zsum l.
Proof. reflexivity. Qed.

Lemma zsum_app (a b : list Z) : zsum (a ++ b) = zsum a + zsum b.
Proof. induction a as [|x a IH]; simpl; [reflexivity | rewrite IH; lia]. Qed.












(** ** Sequences of commands *)





(** ** The state machine *)




Lemma row_eqb_refl (row : list Z) : row_eqb row row = true.
Proof. apply row_eqb_eq. reflexivity. Qed.

Lemma row_out_fixed (a b c d : Z) :
  a <> 0 -> b <> 0 -> c <> 0 -> d <> 0 -> a <> b -> b <> c -> c <> d ->
  row_out [a; b; c; d] = [a; b; c; d].
Proof.
  intros Ha Hb Hc Hd Hab Hbc Hcd.
  apply Z.eqb_neq in Ha, Hb, Hc, Hd.
  assert (Eba : (b =? a) = false) by (apply Z.eqb_neq; congruence).
  assert (Ecb : (c =? b) = false) by (apply Z.eqb_neq; congruence).
  assert (Edc : (d =? c) = false) by (apply Z.eqb_neq; congruence).
  unfold row_out, tile_values. cbn [List.filter].
  rewrite Ha, Hb, Hc, Hd. cbn [negb merge_row].
  rewrite Eba, Ecb, Edc. reflexivity.
Qed.

Lemma unchanged_Forall (rows : list (list Z)) :
  Forall (fun row => row_out row = row) rows -> existsb changed rows = false.
Proof.
  intros H. apply unchanged_rows. induction H as [|row rows E _ IH]; simpl;
    [reflexivity | rewrite E, IH; reflexivity].
Qed.

(** On a board with no move left the engine moves nothing. *)
Lemma stuck_not_moved (b : list (list Z)) (direction : string) :
  grid4 b -> stuck b -> In direction directions ->
  MoveResult.moved (engine direction b) = false.
Proof.
  intros H (Hz & Hh & Hv) Hd. grid4_cells H.
  cell_facts Hz. cell_facts Hh. cell_facts Hv.
  unfold engine, turned. cbn [MoveResult.moved].
  apply unchanged_Forall.
  destruct (directions_inv _ Hd) as [->|[->|[->| ->]]]; simpl;
    repeat constructor; apply row_out_fixed; congruence.
Qed.



(** C6. A command with a token that is none of the four directions, or with
    a direction in which the move engine reports [moved = false], returns
    [None] and leaves the game as it was: board, scores, flags and last spawn;
    the score file and the list of the calls of [save_score_state] are as
    before, and no draw is used. *)
Theorem C6_rejected_commands_change_nothing (direction : string) (rnd : Draw)
    (self : Game2048) (disk : Disk) :
  (~ In direction directions ->
   move direction rnd self disk = Ok (None, self, disk))
  /\ (forall res : MoveResult.t,
         In direction directions ->
         move_result (board self) direction = Ok res ->
         MoveResult.moved res = false ->
         move direction rnd self disk = Ok (None, self, disk)).
Proof.
  split.
  - apply move_not_direction.
  - intros res _. apply move_not_moved.
Qed.

Lemma C6_witness :
  move "left" (mkDraw 1 true)
    (mkGame [[2; 0; 0; 0]; [4; 0; 0; 0]; [0; 0; 0; 0]; [2; 4; 0; 0]]
       12 40 100 false false (Some (3%nat, 1%nat, 4)))
    (mkDisk Malformed Writable [(40, 100)])
  = Ok (None,
        mkGame [[2; 0; 0; 0]; [4; 0; 0; 0]; [0; 0; 0; 0]; [2; 4; 0; 0]]
          12 40 100 false false (Some (3%nat, 1%nat, 4)),
        mkDisk Malformed Writable [(40, 100)])
  /\ move "LEFT" (mkDraw 1 true)
       (mkGame [[2; 0; 0; 0]; [4; 0; 0; 0]; [0; 0; 0; 0]; [2; 4; 0; 0]]
          12 40 100 false false (Some (3%nat, 1%nat, 4)))
       (mkDisk Malformed Writable [(40, 100)])
     = Ok (None,
           mkGame [[2; 0; 0; 0]; [4; 0; 0; 0]; [0; 0; 0; 0]; [2; 4; 0; 0]]
             12 40 100 false false (Some (3%nat, 1%nat, 4)),
           mkDisk Malformed Writable [(40, 100)]).
Proof.
  split.
  - apply (proj1 (C6_rejected_commands_change_nothing "left"%string _ _ _)).
    simpl. intros [E|[E|[E|[E|[]]]]]; discriminate E.
  - apply (proj2 (C6_rejected_commands_change_nothing "LEFT"%string _ _ _)
             (MoveResult.mk
                [[2; 0; 0; 0]; [4; 0; 0; 0]; [0; 0; 0; 0]; [2; 4; 0; 0]] 0 false
                [TileMove.mk (0, 0) (0, 0) 2 false;
                 TileMove.mk (1, 0) (1, 0) 4 false;
                 TileMove.mk (3, 0) (3, 0) 2 false;
                 TileMove.mk (3, 1) (3, 1) 4 false] None)).
    + simpl. auto.
    + reflexivity.
    + reflexivity.
Defined.



(** ** The score ledger *)



(** Saving numbers that print to a writable file and loading gives the pair
    back. *)
Lemma load_after_save (int_of_str : string -> option Z)
    (best total : Z) (disk : Disk) :
  device disk = Writable ->
  convertible best = true -> convertible total = true ->
  load_score_state int_of_str (save_score_state best total disk)
  = Ok (best, total).
Proof.
  intros E Hb Ht. unfold save_score_state. rewrite E.
  unfold load_score_state, load_body, json_load. cbn [content loadable forallb].
  rewrite Hb, Ht. reflexivity.
Qed.

(** A file that is missing, cannot be read, is not UTF-8 or on which
    [json.load] raises JSONDecodeError gives the zero ledger. *)
Lemma load_fallback (int_of_str : string -> option Z) (disk : Disk) :
  In (content disk) [Missing; Unreadable; Undecodable; Malformed] ->
  load_score_state int_of_str disk = Ok (0, 0).
Proof.
  unfold load_score_state. simpl.
  intros [<-|[<-|[<-|[<-|[]]]]]; reflexivity.
Qed.

(** C9. The fallback of [load_score_state] does not cover every corrupt
    file: on a file holding the JSON document [[]], which is not an object,
    [data.get] raises AttributeError, which the [except] clause does not
    catch, so the load fails; and on [{"best_score": null}] [int] raises
    TypeError, not caught either. *)
Theorem C9_load_fails_on_corrupt_document (int_of_str : string -> option Z)
    (dev : medium) (cs : list (Z * Z)) :
  load_score_state int_of_str (mkDisk (Document (JArray [])) dev cs)
  = Raise AttributeError
  /\ load_score_state int_of_str
       (mkDisk (Document (JObject [("best_score"%string, JNull)])) dev cs)
     = Raise TypeError.
Proof. split; reflexivity. Qed.

(** * Further properties of the code *)

(** ** The bounds of [_move_left] *)

Lemma set_item_full (done : list Z) (x : Z) :
  set_item (done ++ repeat 0 0) (length done) x = Raise IndexError.
Proof.
  unfold set_item. rewrite length_app. simpl.
  rewrite Nat.add_0_r, Nat.ltb_irrefl. reflexivity.
Qed.

(** With more merged cells than free cells the loop runs out of the row. *)
Lemma slide_loop_overflow (r : nat) (nz : list (Z * nat * nat)) :
  forall (done : list Z) (k : nat) (g : Z) (ms : list TileMove.t),
    (k < length (merge_row (values nz)))%nat ->
    slide_loop r nz (length done) (done ++ repeat 0 k) g ms = Raise IndexError.
Proof.
  induction nz as [| [[v sr] sc] | [[v sr] sc] [[w nr] nc] nz IH1 IH2]
    using list_ind2; intros done k g ms Hk.
  - simpl in Hk. lia.
  - simpl in Hk. assert (k = 0%nat) as -> by lia.
    cbn [slide_loop]. rewrite set_item_full. reflexivity.
  - rewrite slide_loop_two.
    change (values ((v, sr, sc) :: (w, nr, nc) :: nz))
      with (v :: w :: values nz) in Hk.
    rewrite merge_row_two in Hk.
    change (w :: values nz) with (values ((w, nr, nc) :: nz)) in Hk.
    destruct (w =? v); cbn [length] in Hk;
      (destruct k as [|k]; [rewrite set_item_full; reflexivity|]);
      rewrite set_item_next; cbn [bind].
    + replace (S (length done)) with (length (done ++ [v * 2]))
        by (rewrite length_app; simpl; lia).
      apply IH1. lia.
    + replace (S (length done)) with (length (done ++ [v]))
        by (rewrite length_app; simpl; lia).
      apply IH2. lia.
Qed.

Lemma slide_row_fits (r : nat) (row : list Z) (g : Z) (ms : list TileMove.t) :
  fits row ->
  slide_loop r (non_zero r row) 0 (repeat 0 GRID_SIZE) g ms
  = Ok (row_out row, g + row_gain row, ms ++ row_moves r row).
Proof.
  intros H.
  pose proof (slide_loop_spec r (non_zero r row) [] GRID_SIZE g ms) as S.
  unfold non_zero in *. rewrite values_non_zero_from in S.
  apply S. exact H.
Qed.

Lemma slide_row_overflow (r : nat) (row : list Z) (g : Z) (ms : list TileMove.t) :
  ~ fits row ->
  slide_loop r (non_zero r row) 0 (repeat 0 GRID_SIZE) g ms = Raise IndexError.
Proof.
  intros H.
  pose proof (slide_loop_overflow r (non_zero r row) [] GRID_SIZE g ms) as S.
  unfold non_zero in *. rewrite values_non_zero_from in S.
  apply S. unfold fits in H. lia.
Qed.

Lemma fits_dec (row : list Z) : {fits row} + {~ fits row}.
Proof. unfold fits. apply le_dec. Qed.

Lemma move_left_rows_fits (rows : list (list Z)) :
  forall (r : nat) (nb : list (list Z)) (g : Z) (mv : bool) (ms : list TileMove.t),
    Forall fits rows ->
    move_left_rows r rows nb g mv ms
    = Ok (MoveResult.mk (nb ++ map row_out rows)
            (g + zsum (map row_gain rows))
            (mv || existsb changed rows)
            (ms ++ rows_moves r rows)
            None).
Proof.
  induction rows as [|row rows IH]; intros r nb g mv ms H.
  - simpl. rewrite !app_nil_r, Z.add_0_r, orb_false_r. reflexivity.
  - apply Forall_cons in H. destruct H as [Hrow Hrows].
    cbn [move_left_rows]. rewrite slide_row_fits by assumption. cbn [bind].
    rewrite IH by assumption. simpl.
    rewrite <- !app_assoc, Z.add_assoc. simpl. unfold changed at 2.
    destruct (row_eqb (row_out row) row); simpl;
      [reflexivity | rewrite orb_true_r; reflexivity].
Qed.

Lemma move_left_rows_overflow (rows : list (list Z)) :
  forall (r : nat) (nb : list (list Z)) (g : Z) (mv : bool) (ms : list TileMove.t),
    ~ Forall fits rows ->
    move_left_rows r rows nb g mv ms = Raise IndexError.
Proof.
  induction rows as [|row rows IH]; intros r nb g mv ms H.
  - destruct H. constructor.
  - cbn [move_left_rows]. destruct (fits_dec row) as [Hrow|Hrow].
    + rewrite slide_row_fits by assumption. cbn [bind].
      apply IH. intros Hrows. apply H. constructor; assumption.
    + rewrite slide_row_overflow by assumption. reflexivity.
Qed.

Lemma row_out_length_fits (row : list Z) :
  fits row -> length (row_out row) = GRID_SIZE.
Proof.
  unfold fits, row_out. intros H. rewrite length_app, repeat_length. lia.
Qed.

(** X1. [_move_left] accepts rows of any length: it returns exactly when the
    tiles of every row merge into at most four cells, which rows with at most
    four non-zero cells do, and then the new board has as many rows as the
    old one, each of four cells; otherwise the write cursor leaves the new
    row and IndexError is raised. *)
Theorem move_left_bounds (b : list (list Z)) :
  (Forall fits b ->
   exists res : MoveResult.t,
     _move_left b = Ok res
     /\ length (MoveResult.board res) = length b
     /\ Forall (fun row => length row = GRID_SIZE) (MoveResult.board res))
  /\ (~ Forall fits b -> _move_left b = Raise IndexError)
  /\ (forall row : list Z,
         (length (tile_values row) <= GRID_SIZE)%nat -> fits row).
Proof.
  split; [|split].
  - intros H. eexists. split.
    + unfold _move_left. apply move_left_rows_fits, H.
    + cbn [MoveResult.board app]. split; [apply length_map|].
      rewrite Forall_map. eapply Forall_impl; [exact H|].
      intros row. apply row_out_length_fits.
  - intros H. apply move_left_rows_overflow, H.
  - intros row H. unfold fits.
    pose proof (merge_row_length (tile_values row)). lia.
Qed.

Lemma move_left_bounds_witness :
  (exists res : MoveResult.t,
      _move_left [[2; 2; 2; 2; 2]; [0; 0; 0; 0; 0; 0; 8]; []] = Ok res
      /\ length (MoveResult.board res) = 3%nat
      /\ Forall (fun row => length row = GRID_SIZE) (MoveResult.board res))
  /\ _move_left [[2; 0; 0; 0]; [1; 2; 3; 4; 5]] = Raise IndexError
  /\ fits [0; 2; 0; 4; 0; 8; 8; 0].
Proof.
  split; [|split].
  - apply (proj1 (move_left_bounds [[2; 2; 2; 2; 2]; [0; 0; 0; 0; 0; 0; 8]; []])).
    repeat constructor; unfold fits, GRID_SIZE; simpl; lia.
  - apply (proj1 (proj2 (move_left_bounds [[2; 0; 0; 0]; [1; 2; 3; 4; 5]]))).
    intros H. apply Forall_cons in H. destruct H as [_ H].
    apply Forall_cons in H. destruct H as [H _].
    unfold fits, GRID_SIZE in H. simpl in H. lia.
  - apply (proj2 (proj2 (move_left_bounds []))).
    unfold GRID_SIZE. simpl. lia.
Defined.

(** ** The movements of a slide *)

Lemma tiles_from_weaken (r : nat) (row : list Z) (nz : list (Z * nat * nat)) :
  forall t : nat, tiles_from r (S t) row nz -> tiles_from r t row nz.
Proof.
  induction nz as [|[[v sr] sc] nz IH]; intros t H; [exact I|].
  destruct H as (Hr & Hc & Hv & Hnz & Hrest).
  cbn [tiles_from]. repeat split; auto; lia.
Qed.

Lemma non_zero_from_tiles (r : nat) (rest : list Z) :
  forall before : list Z,
    tiles_from r (length before) (before ++ rest)
      (non_zero_from r (length before) rest).
Proof.
  induction rest as [|v rest IH]; intros before; [exact I|].
  specialize (IH (before ++ [v])).
  rewrite <- app_assoc, length_app in IH. cbn [app length] in IH.
  replace (length before + 1)%nat with (S (length before)) in IH by lia.
  cbn [non_zero_from]. destruct (Z.eqb_spec v 0) as [E|E].
  - apply tiles_from_weaken, IH.
  - cbn [tiles_from]. repeat split; auto.
    + rewrite length_app. simpl. lia.
    + apply nth_middle.
Qed.

Lemma merge_moves_row_move (r : nat) (row : list Z)
    (nz : list (Z * nat * nat)) :
  forall t : nat,
    tiles_from r t row nz -> Forall (row_move r row) (merge_moves r nz t).
Proof.
  induction nz as [| [[v sr] sc] | [[v sr] sc] [[w nr] nc] nz IH1 IH2]
    using list_ind2; intros t H.
  - constructor.
  - destruct H as (-> & Hc & Hv & Hnz & _). repeat constructor.
    exists sc, t. cbn. auto.
  - destruct H as (-> & Hc & Hv & Hnz & H2).
    pose proof H2 as (-> & Hc' & Hv' & Hnz' & H3).
    rewrite merge_moves_two. destruct (w =? v).
    + constructor; [exists sc, t; cbn; auto|].
      constructor; [exists nc, t; cbn; repeat split; auto; lia|].
      apply IH1, tiles_from_weaken, H3.
    + constructor; [exists sc, t; cbn; auto|].
      apply IH2, H2.
Qed.

Lemma row_moves_row_move (r : nat) (row : list Z) :
  Forall (row_move r row) (row_moves r row).
Proof.
  apply merge_moves_row_move. exact (non_zero_from_tiles r row []).
Qed.

Lemma rows_moves_In (rows : list (list Z)) :
  forall (r0 : nat) (m : TileMove.t),
    In m (rows_moves r0 rows) ->
    exists (k : nat) (row : list Z),
      rows !! k = Some row /\ row_move (r0 + k) row m.
Proof.
  induction rows as [|row rows IH]; intros r0 m H; [destruct H|].
  cbn [rows_moves] in H. apply in_app_or in H. destruct H as [H|H].
  - exists 0%nat, row. split; [reflexivity|].
    rewrite Nat.add_0_r.
    pose proof (row_moves_row_move r0 row) as F. rewrite Forall_forall in F.
    apply F, list_elem_of_In, H.
  - destruct (IH (S r0) m H) as (k & row' & Hk & Hm).
    exists (S k), row'. split; [exact Hk|].
    replace (r0 + S k)%nat with (S r0 + k)%nat by lia. exact Hm.
Qed.

(** X2. In a slide of a board of four by four every movement starts at a
    tile of the board and carries its value, begins and ends on the board,
    stays in its row (LEFT, RIGHT) or column (UP, DOWN) and never goes
    against the direction of the slide. *)
Theorem movements_follow_the_direction (b : list (list Z)) (direction : string) :
  grid4 b ->
  In direction directions ->
  exists res : MoveResult.t,
    move_result b direction = Ok res
    /\ Forall (slides direction b) (MoveResult.moves res).
Proof.
  intros H Hd. eexists. split; [apply move_result_spec, H|].
  unfold turned. cbn [MoveResult.moves].
  rewrite Forall_forall. intros m Hm.
  apply list_elem_of_In, in_map_iff in Hm. destruct Hm as (m0 & <- & Hm0).
  apply rows_moves_In in Hm0. destruct Hm0 as (k & row & Hk & Hrow).
  destruct Hrow as (sc & t & Hs & He & Hc & Hv & Hnz).
  destruct m0 as [s e v mg]. cbn [TileMove.start TileMove.end_ TileMove.value] in *.
  subst s e. rewrite Hv in Hnz. subst v. grid4_cells H.
  destruct (directions_inv _ Hd) as [->|[->|[->| ->]]];
    cbn in Hk;
    (destruct k as [|[|[|[|k]]]]; [| | | |discriminate Hk]);
    injection Hk as <-; cbn in Hc;
    (destruct sc as [|[|[|[|sc]]]]; [| | | |lia]);
    (destruct t as [|[|[|[|t]]]]; try lia);
    unfold slides, turn_of, _mirror_horizontal, _transpose_move, GRID_SIZE;
    cbn; cbn in Hnz; repeat split; solve [lia | assumption | reflexivity].
Qed.

Lemma movements_follow_the_direction_witness :
  exists res : MoveResult.t,
    move_result [[2; 0; 2; 4]; [0; 4; 0; 4]; [8; 0; 0; 0]; [2; 2; 2; 2]] "DOWN"
    = Ok res
    /\ Forall (slides "DOWN"
                 [[2; 0; 2; 4]; [0; 4; 0; 4]; [8; 0; 0; 0]; [2; 2; 2; 2]])
         (MoveResult.moves res).
Proof.
  apply movements_follow_the_direction.
  - apply grid4_cons4; reflexivity.
  - simpl. auto.
Defined.

(** ** The score of a slide *)

Lemma merge_gain_merged (r : nat) (nz : list (Z * nat * nat)) :
  forall t : nat,
    merge_gain (values nz)
    = zsum (map TileMove.value (List.filter TileMove.merged (merge_moves r nz t))).
Proof.
  induction nz as [| [[v sr] sc] | [[v sr] sc] [[w nr] nc] nz IH1 IH2]
    using list_ind2; intros t; try reflexivity.
  rewrite merge_moves_two.
  change (values ((v, sr, sc) :: (w, nr, nc) :: nz)) with (v :: w :: values nz).
  rewrite merge_gain_two.
  change (w :: values nz) with (values ((w, nr, nc) :: nz)).
  destruct (Z.eqb_spec w v) as [E|E];
    cbn [List.filter TileMove.merged map]; rewrite ?zsum_cons;
    cbn [TileMove.value].
  - rewrite (IH1 (S t)). lia.
  - apply IH2.
Qed.

Lemma filter_merged_app (a b : list TileMove.t) :
  List.filter TileMove.merged (a ++ b)
  = List.filter TileMove.merged a ++ List.filter TileMove.merged b.
Proof.
  induction a as [|m a IH]; simpl; [reflexivity|].
  destruct (TileMove.merged m); simpl; rewrite IH; reflexivity.
Qed.

Lemma rows_gain_merged (rows : list (list Z)) :
  forall r : nat,
    zsum (map row_gain rows)
    = zsum (map TileMove.value
              (List.filter TileMove.merged (rows_moves r rows))).
Proof.
  induction rows as [|row rows IH]; intros r; [reflexivity|].
  cbn [map rows_moves]. rewrite zsum_cons, filter_merged_app, map_app, zsum_app.
  rewrite <- (IH (S r)). f_equal.
  unfold row_gain, row_moves, non_zero.
  rewrite <- (values_non_zero_from r 0 row). apply merge_gain_merged.
Qed.

Lemma merged_values_turn (direction : string) (ms : list TileMove.t) :
  map TileMove.value (List.filter TileMove.merged (map (turn_of direction) ms))
  = map TileMove.value (List.filter TileMove.merged ms).
Proof.
  induction ms as [|m ms IH]; [reflexivity|].
  cbn [map List.filter]. rewrite turn_of_coords.
  cbn [coords TileMove.merged]. rewrite <- turn_of_coords.
  destruct (TileMove.merged m); cbn [map]; rewrite IH; [|reflexivity].
  rewrite turn_of_coords. reflexivity.
Qed.

(** X3. In every direction the score a slide gains is the sum of the values
    of the tiles whose movement is flagged as merged. *)
Theorem gain_is_the_sum_of_merged_tiles (b : list (list Z)) (direction : string) :
  grid4 b ->
  In direction directions ->
  exists res : MoveResult.t,
    move_result b direction = Ok res
    /\ MoveResult.score_gain res
       = zsum (map TileMove.value
                 (List.filter TileMove.merged (MoveResult.moves res))).
Proof.
  intros H _. eexists. split; [apply move_result_spec, H|].
  unfold turned. cbn [MoveResult.score_gain MoveResult.moves].
  rewrite merged_values_turn. apply rows_gain_merged.
Qed.

Lemma gain_is_the_sum_of_merged_tiles_witness :
  exists res : MoveResult.t,
    move_result [[2; 2; 4; 4]; [0; 4; 0; 4]; [8; 0; 0; 0]; [2; 2; 2; 2]] "RIGHT"
    = Ok res
    /\ MoveResult.score_gain res
       = zsum (map TileMove.value
                 (List.filter TileMove.merged (MoveResult.moves res))).
Proof.
  apply gain_is_the_sum_of_merged_tiles.
  - apply grid4_cons4; reflexivity.
  - simpl. auto.
Defined.

(** ** Reset *)

Lemma zero_board_cell (r c : nat) :
  (r < GRID_SIZE)%nat -> (c < GRID_SIZE)%nat ->
  get_cell (repeat (repeat 0 GRID_SIZE) GRID_SIZE) r c = Ok 0.
Proof. intros Hr Hc. small_index r; small_index c; reflexivity. Qed.

Lemma zero_board_grid4 : grid4 (repeat (repeat 0 GRID_SIZE) GRID_SIZE).
Proof. apply grid4_cons4; reflexivity. Qed.

(** [reset] in closed form: two tiles on an empty board. *)
Lemma reset_spec (rnd1 rnd2 : Draw) (self : Game2048) :
  exists (r1 c1 : nat) (v1 : Z) (r2 c2 : nat) (v2 : Z) (b : list (list Z)),
    reset rnd1 rnd2 self
    = Ok (mkGame b 0 (best_score self) (total_score self) false false
            (Some (r2, c2, v2)))
    /\ grid4 b
    /\ (r1, c1) <> (r2, c2)
    /\ (r1 < GRID_SIZE)%nat /\ (c1 < GRID_SIZE)%nat
    /\ (r2 < GRID_SIZE)%nat /\ (c2 < GRID_SIZE)%nat
    /\ (v1 = 2 \/ v1 = 4) /\ (v2 = 2 \/ v2 = 4)
    /\ get_cell b r1 c1 = Ok v1
    /\ get_cell b r2 c2 = Ok v2
    /\ forall r c : nat,
        (r < GRID_SIZE)%nat -> (c < GRID_SIZE)%nat ->
        (r, c) <> (r1, c1) -> (r, c) <> (r2, c2) ->
        get_cell b r c = Ok 0.
Proof.
  unfold reset.
  set (self0 := mkGame (repeat (repeat 0 GRID_SIZE) GRID_SIZE) 0
                  (best_score self) (total_score self) false false None).
  destruct (spawn_tile_spec rnd1 self0 zero_board_grid4)
    as (sp1 & b1 & E1 & Hg1 & Hsp1 & _).
  rewrite E1. cbn [bind].
  destruct sp1 as [[[r1 c1] v1]|].
  2:{ destruct Hsp1 as [_ Hfull]. exfalso.
      apply (Hfull 0%nat 0%nat); [unfold GRID_SIZE; lia ..|reflexivity]. }
  destruct Hsp1 as (Hr1 & Hc1 & _ & Hv1 & Hget1 & Hothers1).
  cbn [board score best_score total_score game_over won last_spawn self0] in *.
  set (self1 := mkGame b1 _ _ _ _ _ _).
  destruct (spawn_tile_spec rnd2 self1 Hg1)
    as (sp2 & b2 & E2 & Hg2 & Hsp2 & _).
  rewrite E2. cbn [bind].
  destruct sp2 as [[[r2 c2] v2]|].
  2:{ destruct Hsp2 as [_ Hfull]. exfalso. cbn [board self1] in Hfull.
      destruct (prod_eq_dec (0%nat, 0%nat) (r1, c1)) as [E|E].
      - apply (Hfull 0%nat 1%nat); [unfold GRID_SIZE; lia ..|].
        rewrite Hothers1; [reflexivity|unfold GRID_SIZE; lia ..|].
        intros E'. rewrite <- E in E'. discriminate E'.
      - apply (Hfull 0%nat 0%nat); [unfold GRID_SIZE; lia ..|].
        rewrite Hothers1; [reflexivity|unfold GRID_SIZE; lia ..|exact E]. }
  cbn [board self1] in Hsp2.
  destruct Hsp2 as (Hr2 & Hc2 & Hzero2 & Hv2 & Hget2 & Hothers2).
  assert (Hne : (r1, c1) <> (r2, c2)).
  { intros E. injection E as <- <-. rewrite Hget1 in Hzero2.
    injection Hzero2 as ->. destruct Hv1; discriminate. }
  exists r1, c1, v1, r2, c2, v2, b2.
  cbn [score best_score total_score game_over won self1].
  split; [reflexivity|]. split; [exact Hg2|]. split; [exact Hne|].
  repeat (split; [assumption|]).
  split; [rewrite Hothers2 by assumption; exact Hget1|].
  split; [exact Hget2|].
  intros r c Hr Hc Hn1 Hn2.
  rewrite Hothers2, Hothers1 by assumption. apply zero_board_cell; assumption.
Qed.

(** X4. [reset] always returns: the board has four rows of four cells, two
    different cells hold a 2 or a 4 each and every other cell is empty; the
    score is 0, the game is neither won nor over, the best and the total
    score are kept and the last spawn is the second tile. *)
Theorem reset_gives_two_tiles (rnd1 rnd2 : Draw) (self : Game2048) :
  exists (r1 c1 : nat) (v1 : Z) (r2 c2 : nat) (v2 : Z) (self' : Game2048),
    reset rnd1 rnd2 self = Ok self'
    /\ grid4 (board self')
    /\ (r1, c1) <> (r2, c2)
    /\ (r1 < GRID_SIZE)%nat /\ (c1 < GRID_SIZE)%nat
    /\ (r2 < GRID_SIZE)%nat /\ (c2 < GRID_SIZE)%nat
    /\ (v1 = 2 \/ v1 = 4) /\ (v2 = 2 \/ v2 = 4)
    /\ get_cell (board self') r1 c1 = Ok v1
    /\ get_cell (board self') r2 c2 = Ok v2
    /\ (forall r c : nat,
           (r < GRID_SIZE)%nat -> (c < GRID_SIZE)%nat ->
           (r, c) <> (r1, c1) -> (r, c) <> (r2, c2) ->
           get_cell (board self') r c = Ok 0)
    /\ score self' = 0 /\ game_over self' = false /\ won self' = false
    /\ best_score self' = best_score self
    /\ total_score self' = total_score self
    /\ last_spawn self' = Some (r2, c2, v2).
Proof.
  destruct (reset_spec rnd1 rnd2 self)
    as (r1 & c1 & v1 & r2 & c2 & v2 & b & E & Hg & Hne & Hr1 & Hc1 & Hr2 & Hc2
        & Hv1 & Hv2 & H1 & H2 & H0).
  exists r1, c1, v1, r2, c2, v2. eexists. split; [exact E|].
  cbn [board score best_score total_score game_over won last_spawn].
  auto 20.
Qed.

(** ** A game with no move left *)

Lemma stuck_move_rejected (direction : string) (rnd : Draw) (self : Game2048)
    (disk : Disk) :
  grid4 (board self) -> stuck (board self) ->
  move direction rnd self disk = Ok (None, self, disk).
Proof.
  intros H Hs. destruct (is_direction direction) eqn:Ed.
  - apply is_direction_In in Ed.
    eapply move_not_moved; [apply move_result_spec, H|].
    apply (stuck_not_moved _ _ H Hs Ed).
  - apply move_not_direction. rewrite <- is_direction_In. congruence.
Qed.

(** X5. On a board of four by four with no empty cell and no equal
    neighbours every command is rejected: whatever the sequence of commands
    and draws, all outcomes are [None], and the game and the file system are
    as before. *)
Theorem stuck_game_is_frozen (commands : list (string * Draw))
    (self : Game2048) (disk : Disk) :
  grid4 (board self) ->
  stuck (board self) ->
  play commands self disk = Ok (map (fun _ => None) commands, self, disk).
Proof.
  intros H Hs. induction commands as [|[direction rnd] commands IH];
    [reflexivity|].
  cbn [play map]. rewrite stuck_move_rejected by assumption. cbn [bind].
  rewrite IH. reflexivity.
Qed.

Lemma stuck_game_is_frozen_witness :
  play [("LEFT"%string, mkDraw 0 false); ("UP"%string, mkDraw 3 true);
        ("RIGHT"%string, mkDraw 9 false); ("DOWN"%string, mkDraw 1 false)]
    (mkGame [[2; 4; 2; 4]; [4; 2; 4; 2]; [2; 4; 2; 4]; [4; 2; 4; 2]]
       40 80 200 true false (Some (0%nat, 0%nat, 2)))
    (mkDisk Missing Writable [])
  = Ok (map (fun _ => None)
          [("LEFT"%string, mkDraw 0 false); ("UP"%string, mkDraw 3 true);
           ("RIGHT"%string, mkDraw 9 false); ("DOWN"%string, mkDraw 1 false)],
        mkGame [[2; 4; 2; 4]; [4; 2; 4; 2]; [2; 4; 2; 4]; [4; 2; 4; 2]]
          40 80 200 true false (Some (0%nat, 0%nat, 2)),
        mkDisk Missing Writable []).
Proof.
  apply stuck_game_is_frozen.
  - apply grid4_cons4; reflexivity.
  - apply stuck_iff; [apply grid4_cons4; reflexivity | reflexivity].
Defined.

(** ** The game and the score file *)




(** X10. A new game does not fail on a score file that is missing, cannot
    be read, is not UTF-8, on which [json.load] raises JSONDecodeError, or
    that is a JSON document with an integer literal of more than
    [INT_MAX_STR_DIGITS] digits: it starts on a board of four by four with a
    best, a total and a session score of 0.  On a file nested so deeply that
    [json.load] raises RecursionError the constructor fails with that
    exception. *)
Theorem new_game_without_history (int_of_str : string -> option Z)
    (rnd1 rnd2 : Draw) (disk : Disk) :
  (In (content disk) [Missing; Unreadable; Undecodable; Malformed]
   \/ (exists data : json,
          content disk = Document data /\ loadable data = false) ->
   exists fresh : Game2048,
     __init__ int_of_str rnd1 rnd2 disk = Ok fresh
     /\ best_score fresh = 0 /\ total_score fresh = 0 /\ score fresh = 0
     /\ grid4 (board fresh))
  /\ (content disk = TooDeep ->
      __init__ int_of_str rnd1 rnd2 disk = Raise RecursionError).
Proof.
  split.
  - intros H. unfold __init__.
    assert (E : load_score_state int_of_str disk = Ok (0, 0)).
    { unfold load_score_state, load_body, json_load.
      destruct H as [H|(data & -> & Hd)].
      - simpl in H. destruct H as [<-|[<-|[<-|[<-|[]]]]]; reflexivity.
      - rewrite Hd. reflexivity. }
    rewrite E. cbn [bind fst snd].
    destruct (reset_spec rnd1 rnd2 (mkGame [] 0 0 0 false false None))
      as (r1 & c1 & v1 & r2 & c2 & v2 & b & Er & Hg & _).
    eexists. split; [exact Er|]. cbn. auto.
  - intros E. unfold __init__, load_score_state. rewrite E. reflexivity.
Qed.

Lemma new_game_without_history_witness :
  (exists fresh : Game2048,
      __init__ (fun _ => None) (mkDraw 3 false) (mkDraw 8 true)
        (mkDisk Malformed ReadOnly [])
      = Ok fresh
      /\ best_score fresh = 0 /\ total_score fresh = 0 /\ score fresh = 0
      /\ grid4 (board fresh))
  /\ (exists fresh : Game2048,
         __init__ (fun _ => None) (mkDraw 3 false) (mkDraw 8 true)
           (mkDisk (Document (JObject [("total_score"%string,
                                        JInt (10 ^ 4300))]))
              Writable [])
         = Ok fresh
         /\ best_score fresh = 0 /\ total_score fresh = 0 /\ score fresh = 0
         /\ grid4 (board fresh))
  /\ __init__ (fun _ => None) (mkDraw 3 false) (mkDraw 8 true)
       (mkDisk TooDeep Writable [])
     = Raise RecursionError.
Proof.
  split; [|split].
  - apply (proj1 (new_game_without_history (fun _ => None) (mkDraw 3 false)
                    (mkDraw 8 true) (mkDisk Malformed ReadOnly []))).
    left. simpl. auto.
  - apply (proj1 (new_game_without_history (fun _ => None) (mkDraw 3 false)
                    (mkDraw 8 true)
                    (mkDisk (Document (JObject [("total_score"%string,
                                                 JInt (10 ^ 4300))]))
                       Writable []))).
    right. eexists. split; [reflexivity|]. vm_compute. reflexivity.
  - apply (proj2 (new_game_without_history (fun _ => None) (mkDraw 3 false)
                    (mkDraw 8 true) (mkDisk TooDeep Writable []))).
    reflexivity.
Defined.

(** ** The tiles are powers of two *)

















(** ** When no direction moves *)

(** A row that neither LEFT nor RIGHT changes is empty or is full without
    equal neighbours. *)
Lemma row_unchanged_both_ways (a b c d : Z) :
  changed [a; b; c; d] = false ->
  changed [d; c; b; a] = false ->
  (a = 0 /\ b = 0 /\ c = 0 /\ d = 0)
  \/ (a <> 0 /\ b <> 0 /\ c <> 0 /\ d <> 0 /\ a <> b /\ b <> c /\ c <> d).
Proof.
  unfold changed, row_out, tile_values. cbn [List.filter].
  destruct (Z.eqb_spec a 0); destruct (Z.eqb_spec b 0);
    destruct (Z.eqb_spec c 0); destruct (Z.eqb_spec d 0); subst;
    unfold GRID_SIZE; cbn;
    repeat (match goal with
            | |- context [Z.eqb ?x ?y] => destruct (Z.eqb_spec x y); try lia
            end; cbn);
    intros H1 H2; try discriminate H1; try discriminate H2;
    first [left; repeat split; lia | right; repeat split; lia].
Qed.

Lemma not_changed_Forall (rows : list (list Z)) :
  existsb changed rows = false ->
  Forall (fun row => changed row = false) rows.
Proof.
  induction rows as [|row rows IH]; simpl; [constructor|].
  rewrite orb_false_iff. intros [H1 H2].
  apply List.Forall_cons; auto.
Qed.

Lemma all_zero_board (b : list (list Z)) :
  grid4 b ->
  (forall r c : nat,
      (r < GRID_SIZE)%nat -> (c < GRID_SIZE)%nat -> get_cell b r c = Ok 0) ->
  b = repeat (repeat 0 GRID_SIZE) GRID_SIZE.
Proof.
  intros H Hz. grid4_cells H. cell_facts Hz.
  repeat match goal with
         | F : Ok _ = Ok 0 |- _ => injection F as ->
         end.
  reflexivity.
Qed.

Lemma engine_lines (b : list (list Z)) :
  grid4 b ->
  (forall direction : string,
      In direction directions ->
      MoveResult.moved (engine direction b) = false) ->
  stuck b
  \/ forall r c : nat,
      (r < GRID_SIZE)%nat -> (c < GRID_SIZE)%nat -> get_cell b r c = Ok 0.
Proof.
  intros H Hall.
  pose proof (Hall "LEFT"%string ltac:(simpl; auto)) as HL.
  pose proof (Hall "RIGHT"%string ltac:(simpl; auto)) as HR.
  pose proof (Hall "UP"%string ltac:(simpl; auto)) as HU.
  pose proof (Hall "DOWN"%string ltac:(simpl; auto)) as HD.
  clear Hall. grid4_cells H.
  unfold engine, turned in HL, HR, HU, HD.
  cbn [MoveResult.moved] in HL, HR, HU, HD.
  apply not_changed_Forall in HL, HR, HU, HD.
  unfold pre_of in HL, HR, HU, HD. simpl in HL, HR, HU, HD.
  rewrite !Forall_cons in HL, HR, HU, HD.
  destruct HL as (L0 & L1 & L2 & L3 & _).
  destruct HR as (R0 & R1 & R2 & R3 & _).
  destruct HU as (U0 & U1 & U2 & U3 & _).
  destruct HD as (D0 & D1 & D2 & D3 & _).
  pose proof (row_unchanged_both_ways _ _ _ _ L0 R0) as Ra.
  pose proof (row_unchanged_both_ways _ _ _ _ L1 R1) as Rb.
  pose proof (row_unchanged_both_ways _ _ _ _ L2 R2) as Rc.
  pose proof (row_unchanged_both_ways _ _ _ _ L3 R3) as Rd.
  pose proof (row_unchanged_both_ways _ _ _ _ U0 D0) as C0.
  pose proof (row_unchanged_both_ways _ _ _ _ U1 D1) as C1.
  pose proof (row_unchanged_both_ways _ _ _ _ U2 D2) as C2.
  pose proof (row_unchanged_both_ways _ _ _ _ U3 D3) as C3.
  clear L0 L1 L2 L3 R0 R1 R2 R3 U0 U1 U2 U3 D0 D1 D2 D3.
  destruct Ra as [(Za0 & Za1 & Za2 & Za3)|(Na0 & Na1 & Na2 & Na3 & Ha)].
  - (* the first row is empty: so is every column *)
    destruct C0 as [(_ & Zb0 & Zc0 & Zd0)|(N & _)]; [|contradiction].
    destruct C1 as [(_ & Zb1 & Zc1 & Zd1)|(N & _)]; [|contradiction].
    destruct C2 as [(_ & Zb2 & Zc2 & Zd2)|(N & _)]; [|contradiction].
    destruct C3 as [(_ & Zb3 & Zc3 & Zd3)|(N & _)]; [|contradiction].
    clear Rb Rc Rd. subst. right.
    intros r c Hr Hc. small_index r; small_index c; reflexivity.
  - (* the first row is full: so is every column, and then every row *)
    destruct C0 as [(Z0 & _)|(_ & Nb0 & Nc0 & Nd0 & V0)]; [contradiction|].
    destruct C1 as [(Z1 & _)|(_ & Nb1 & Nc1 & Nd1 & V1)]; [contradiction|].
    destruct C2 as [(Z2 & _)|(_ & Nb2 & Nc2 & Nd2 & V2)]; [contradiction|].
    destruct C3 as [(Z3 & _)|(_ & Nb3 & Nc3 & Nd3 & V3)]; [contradiction|].
    destruct Rb as [(Z0 & _)|(_ & _ & _ & _ & Hb)]; [contradiction|].
    destruct Rc as [(Z0 & _)|(_ & _ & _ & _ & Hc)]; [contradiction|].
    destruct Rd as [(Z0 & _)|(_ & _ & _ & _ & Hd)]; [contradiction|].
    destruct Ha as (? & ? & ?). destruct Hb as (? & ? & ?).
    destruct Hc as (? & ? & ?). destruct Hd as (? & ? & ?).
    destruct V0 as (? & ? & ?). destruct V1 as (? & ? & ?).
    destruct V2 as (? & ? & ?). destruct V3 as (? & ? & ?).
    left. apply stuck_iff; [exact H|].
    unfold can_moveb, row_pairs, column_pairs, GRID_SIZE.
    cbn [existsb flat_map map seq Nat.sub app].
    unfold equal_at, cell_value. cbn [fst snd nth].
    rewrite !orb_false_iff.
    repeat split; solve [reflexivity | apply Z.eqb_neq; assumption].
Qed.

(** X12. On a board of four by four no direction moves exactly when
    [_can_move] answers false or the board is empty: [_can_move] says that a
    move is left whenever one is, and only on the empty board, where it
    answers true for the empty cells, does it say so though nothing can
    move. *)
Theorem no_direction_moves_iff (self : Game2048) :
  grid4 (board self) ->
  ((forall direction : string,
       In direction directions ->
       exists res : MoveResult.t,
         move_result (board self) direction = Ok res
         /\ MoveResult.moved res = false)
   <-> (_can_move self = Ok false
        \/ forall r c : nat,
            (r < GRID_SIZE)%nat -> (c < GRID_SIZE)%nat ->
            get_cell (board self) r c = Ok 0)).
Proof.
  intros H. rewrite can_move_spec by exact H. split.
  - intros Hall.
    assert (Hmoved : forall direction : string,
               In direction directions ->
               MoveResult.moved (engine direction (board self)) = false).
    { intros direction Hd. destruct (Hall direction Hd) as (res & E & Hm).
      rewrite move_result_spec in E by exact H. injection E as <-. exact Hm. }
    destruct (engine_lines _ H Hmoved) as [Hs|Hz]; [left | right; exact Hz].
    f_equal. apply stuck_iff; assumption.
  - intros [E|Hz] direction Hd; exists (engine direction (board self));
      (split; [apply move_result_spec, H|]).
    + injection E as E. apply stuck_not_moved; auto. apply stuck_iff; auto.
    + rewrite (all_zero_board _ H Hz).
      destruct (directions_inv _ Hd) as [->|[->|[->| ->]]]; reflexivity.
Qed.

Lemma no_direction_moves_iff_witness :
  (forall direction : string,
      In direction directions ->
      exists res : MoveResult.t,
        move_result
          (board (mkGame [[0; 0; 0; 0]; [0; 0; 0; 0]; [0; 0; 0; 0]; [0; 0; 0; 0]]
                    0 0 0 false false None))
          direction
        = Ok res
        /\ MoveResult.moved res = false)
  <-> (_can_move
         (mkGame [[0; 0; 0; 0]; [0; 0; 0; 0]; [0; 0; 0; 0]; [0; 0; 0; 0]]
            0 0 0 false false None)
       = Ok false
       \/ forall r c : nat,
           (r < GRID_SIZE)%nat -> (c < GRID_SIZE)%nat ->
           get_cell
             (board (mkGame [[0; 0; 0; 0]; [0; 0; 0; 0]; [0; 0; 0; 0]; [0; 0; 0; 0]]
                       0 0 0 false false None))
             r c
           = Ok 0).
Proof.
  apply no_direction_moves_iff. apply grid4_cons4; reflexivity.
Defined.

(** ** What is animated *)









(** X14. A pending spawn is never lost by [_update_animations]: while the
    slide animation is younger than 140 ms it stays pending and the slide
    goes on; as soon as there is no slide animation or it is 140 ms old, the
    slide animation ends and the spawn animation starts now, with the cell
    and the value that were pending. *)
Theorem pending_spawn_is_handed_over (app : GameApp) (r c : nat) (v : Z) :
  pending_spawn app = Some (r, c, v) ->
  (exists (ms : list TileMove.t) (t0 : Z),
      move_animation app = Some (ms, t0)
      /\ current_time app - t0 < ANIMATION_DURATION_MS
      /\ pending_spawn (_update_animations app) = Some (r, c, v)
      /\ move_animation (_update_animations app) = Some (ms, t0))
  \/ ((move_animation app = None
       \/ exists (ms : list TileMove.t) (t0 : Z),
           move_animation app = Some (ms, t0)
           /\ ANIMATION_DURATION_MS <= current_time app - t0)
      /\ pending_spawn (_update_animations app) = None
      /\ move_animation (_update_animations app) = None
      /\ spawn_animation (_update_animations app)
         = Some ((r, c), v, current_time app)).
Proof.
  intros Hp. unfold _update_animations, start_pending. rewrite Hp.
  destruct (move_animation app) as [[ms t0]|] eqn:Em.
  - destruct (Z.geb_spec (current_time app - t0) ANIMATION_DURATION_MS) as [Hge|Hlt].
    + right. cbn [spawn_animation current_time].
      rewrite Z.sub_diag. cbn. split; [right; eauto|]. auto.
    + left. exists ms, t0.
      destruct (spawn_animation app) as [[[cell0 v0] t1]|];
        [destruct (_ >=? SPAWN_ANIMATION_DURATION_MS)|];
        cbn; rewrite ?Hp, ?Em; auto.
  - right. cbn [spawn_animation current_time].
    rewrite Z.sub_diag. cbn. auto.
Qed.

Lemma pending_spawn_is_handed_over_witness :
  (exists (ms : list TileMove.t) (t0 : Z),
      move_animation
        (mkApp (mkGame [] 0 0 0 false false None)
           (Some ([TileMove.mk (0, 1) (0, 0) 2 false], 1000)) None
           (Some (2%nat, 3%nat, 4)) [] [] 0 0 1140)
      = Some (ms, t0)
      /\ current_time
           (mkApp (mkGame [] 0 0 0 false false None)
              (Some ([TileMove.mk (0, 1) (0, 0) 2 false], 1000)) None
              (Some (2%nat, 3%nat, 4)) [] [] 0 0 1140)
         - t0 < ANIMATION_DURATION_MS
      /\ pending_spawn
           (_update_animations
              (mkApp (mkGame [] 0 0 0 false false None)
                 (Some ([TileMove.mk (0, 1) (0, 0) 2 false], 1000)) None
                 (Some (2%nat, 3%nat, 4)) [] [] 0 0 1140))
         = Some (2%nat, 3%nat, 4)
      /\ move_animation
           (_update_animations
              (mkApp (mkGame [] 0 0 0 false false None)
                 (Some ([TileMove.mk (0, 1) (0, 0) 2 false], 1000)) None
                 (Some (2%nat, 3%nat, 4)) [] [] 0 0 1140))
         = Some (ms, t0))
  \/ ((move_animation
         (mkApp (mkGame [] 0 0 0 false false None)
            (Some ([TileMove.mk (0, 1) (0, 0) 2 false], 1000)) None
            (Some (2%nat, 3%nat, 4)) [] [] 0 0 1140)
       = None
       \/ exists (ms : list TileMove.t) (t0 : Z),
           move_animation
             (mkApp (mkGame [] 0 0 0 false false None)
                (Some ([TileMove.mk (0, 1) (0, 0) 2 false], 1000)) None
                (Some (2%nat, 3%nat, 4)) [] [] 0 0 1140)
           = Some (ms, t0)
           /\ ANIMATION_DURATION_MS
              <= current_time
                   (mkApp (mkGame [] 0 0 0 false false None)
                      (Some ([TileMove.mk (0, 1) (0, 0) 2 false], 1000)) None
                      (Some (2%nat, 3%nat, 4)) [] [] 0 0 1140)
                 - t0)
      /\ pending_spawn
           (_update_animations
              (mkApp (mkGame [] 0 0 0 false false None)
                 (Some ([TileMove.mk (0, 1) (0, 0) 2 false], 1000)) None
                 (Some (2%nat, 3%nat, 4)) [] [] 0 0 1140))
         = None
      /\ move_animation
           (_update_animations
              (mkApp (mkGame [] 0 0 0 false false None)
                 (Some ([TileMove.mk (0, 1) (0, 0) 2 false], 1000)) None
                 (Some (2%nat, 3%nat, 4)) [] [] 0 0 1140))
         = None
      /\ spawn_animation
           (_update_animations
              (mkApp (mkGame [] 0 0 0 false false None)
                 (Some ([TileMove.mk (0, 1) (0, 0) 2 false], 1000)) None
                 (Some (2%nat, 3%nat, 4)) [] [] 0 0 1140))
         = Some ((2%nat, 3%nat), 4,
                 current_time
                   (mkApp (mkGame [] 0 0 0 false false None)
                      (Some ([TileMove.mk (0, 1) (0, 0) 2 false], 1000)) None
                      (Some (2%nat, 3%nat, 4)) [] [] 0 0 1140))).
Proof.
  apply (pending_spawn_is_handed_over
           (mkApp (mkGame [] 0 0 0 false false None)
              (Some ([TileMove.mk (0, 1) (0, 0) 2 false], 1000)) None
              (Some (2%nat, 3%nat, 4)) [] [] 0 0 1140)
           2%nat 3%nat 4).
  reflexivity.
Defined.

(** X15. The highlight of a gain: after [_record_gain] with a positive gain,
    [_gain_active] answers true at every frame up to 1200 ms later; at the
    first later frame it answers false and clears the gain, and from then on
    it answers false at every time, until a new gain is recorded. *)
Theorem gain_highlight_lasts_1200_ms (gain now : Z) (app : GameApp) :
  0 < gain ->
  let recorded := _record_gain gain app in
  let frame := _gain_active (at_time now recorded) in
  fst frame = (now - current_time app <=? 1200)
  /\ (now - current_time app <= 1200 -> snd frame = at_time now recorded)
  /\ (1200 < now - current_time app ->
      last_gain (snd frame) = 0
      /\ forall later : Z, fst (_gain_active (at_time later (snd frame))) = false).
Proof.
  intros Hg recorded frame. subst recorded frame.
  unfold _record_gain. destruct (Z.leb_spec gain 0); [lia|].
  unfold _gain_active, at_time.
  cbn [last_gain last_gain_time current_time game move_animation
         spawn_animation pending_spawn overlay_buttons header_buttons].
  destruct (Z.leb_spec gain 0); [lia|].
  destruct (Z.gtb_spec (now - current_time app) 1200);
    destruct (Z.leb_spec (now - current_time app) 1200); try lia;
    cbn [fst snd last_gain].
  - split; [reflexivity|]. split; [lia|]. intros _. split; reflexivity.
  - split; [reflexivity|]. split; [reflexivity | lia].
Qed.

Lemma gain_highlight_lasts_1200_ms_witness :
  fst (_gain_active
         (at_time 3000 (_record_gain 8
            (mkApp (mkGame [] 0 0 0 false false None)
               None None None [] [] 0 0 2000))))
  = (3000 - 2000 <=? 1200)
  /\ (3000 - 2000 <= 1200 ->
      snd (_gain_active
             (at_time 3000 (_record_gain 8
                (mkApp (mkGame [] 0 0 0 false false None)
                   None None None [] [] 0 0 2000))))
      = at_time 3000 (_record_gain 8
          (mkApp (mkGame [] 0 0 0 false false None)
             None None None [] [] 0 0 2000)))
  /\ (1200 < 3000 - 2000 ->
      last_gain
        (snd (_gain_active
                (at_time 3000 (_record_gain 8
                   (mkApp (mkGame [] 0 0 0 false false None)
                      None None None [] [] 0 0 2000)))))
      = 0
      /\ forall later : Z,
          fst (_gain_active
                 (at_time later
                    (snd (_gain_active
                            (at_time 3000 (_record_gain 8
                               (mkApp (mkGame [] 0 0 0 false false None)
                                  None None None [] [] 0 0 2000)))))))
          = false).
Proof.
  apply (gain_highlight_lasts_1200_ms 8 3000
           (mkApp (mkGame [] 0 0 0 false false None)
              None None None [] [] 0 0 2000)).
  lia.
Defined.

(** ** Transposing boards of any shape *)

Lemma lookup_nth (row : list Z) (c : nat) :
  row !! c = if (c <? length row)%nat then Some (nth c row 0) else None.
Proof.
  revert c. induction row as [|x row IH]; intros [|c]; try reflexivity.
  cbn [lookup list_lookup length nth]. rewrite IH. reflexivity.
Qed.

Lemma lookup_map {A B : Type} (f : A -> B) (l : list A) (i : nat) :
  map f l !! i = option_map f (l !! i).
Proof.
  revert i. induction l as [|x l IH]; intros [|i]; try reflexivity.
  cbn [map lookup list_lookup]. apply IH.
Qed.

Lemma zip_cons_lookup (row : list Z) (cols : list (list Z)) (c : nat) :
  zip_cons row cols !! c
  = match row !! c, cols !! c with
    | Some x, Some col => Some (x :: col)
    | _, _ => None
    end.
Proof.
  revert cols c. induction row as [|x row IH]; intros [|col cols] [|c];
    try reflexivity.
  - cbn. destruct (row !! c); reflexivity.
  - cbn [zip_cons lookup list_lookup]. apply IH.
Qed.

Lemma shortest_cons (row r2 : list Z) (rest : list (list Z)) :
  shortest (row :: r2 :: rest) = Nat.min (length row) (shortest (r2 :: rest)).
Proof. reflexivity. Qed.

Lemma transpose_cons (row r2 : list Z) (rest : list (list Z)) :
  transpose (row :: r2 :: rest) = zip_cons row (transpose (r2 :: rest)).
Proof. reflexivity. Qed.

(** The columns of a board, up to the end of its shortest row. *)
Lemma transpose_lookup (b : list (list Z)) (c : nat) :
  b <> [] ->
  transpose b !! c
  = if (c <? shortest b)%nat then Some (column c b) else None.
Proof.
  induction b as [|row [|r2 rest] IH]; intros Hne; [congruence| |].
  - cbn [transpose shortest column map]. rewrite lookup_map, lookup_nth.
    destruct (c <? length row)%nat; reflexivity.
  - rewrite transpose_cons, shortest_cons, zip_cons_lookup, lookup_nth.
    rewrite IH by discriminate.
    destruct (Nat.ltb_spec c (length row));
      destruct (Nat.ltb_spec c (shortest (r2 :: rest)));
      destruct (Nat.ltb_spec c (Nat.min (length row) (shortest (r2 :: rest))));
      try lia; reflexivity.
Qed.

Lemma shortest_le (b : list (list Z)) (row : list Z) :
  In row b -> (shortest b <= length row)%nat.
Proof.
  induction b as [|r1 [|r2 rest] IH]; intros H; [destruct H| |].
  - destruct H as [->|[]]. reflexivity.
  - rewrite shortest_cons. destruct H as [->|H]; [lia|].
    specialize (IH H). lia.
Qed.

Lemma transpose_length (b : list (list Z)) :
  length (transpose b) = shortest b.
Proof.
  destruct b as [|r1 rest]; [reflexivity|].
  pose proof (transpose_lookup (r1 :: rest)) as L.
  assert (Hne : r1 :: rest <> []) by discriminate.
  destruct (Nat.lt_trichotomy (length (transpose (r1 :: rest)))
              (shortest (r1 :: rest))) as [Hlt|[E|Hgt]]; [|exact E|].
  - specialize (L (length (transpose (r1 :: rest))) Hne).
    rewrite (proj2 (Nat.ltb_lt _ _) Hlt) in L.
    rewrite lookup_ge_None_2 in L by lia. discriminate L.
  - specialize (L (shortest (r1 :: rest)) Hne).
    rewrite Nat.ltb_irrefl in L.
    apply lookup_ge_None_1 in L. lia.
Qed.

Lemma transpose_columns (b : list (list Z)) :
  b <> [] -> Forall (fun col => length col = length b) (transpose b).
Proof.
  intros Hne. rewrite Forall_forall. intros col Hcol.
  apply list_elem_of_lookup_1 in Hcol. destruct Hcol as (c & Hc).
  rewrite transpose_lookup in Hc by exact Hne.
  destruct (c <? shortest b)%nat; [|discriminate Hc].
  injection Hc as <-. apply length_map.
Qed.

(** X16. [transpose] on boards of any shape: the empty board gives the empty
    board; otherwise there are as many columns as the shortest row is long,
    each as long as the board has rows, the cell [(c, r)] of the result is
    the cell [(r, c)] of the board, and the cells of longer rows beyond the
    shortest are dropped. *)
Theorem transpose_cells :
  transpose [] = []
  /\ forall b : list (list Z),
      b <> [] ->
      length (transpose b) = shortest b
      /\ Forall (fun col => length col = length b) (transpose b)
      /\ forall r c : nat,
          get_cell (transpose b) c r
          = if (c <? shortest b)%nat then get_cell b r c else Raise IndexError.
Proof.
  split; [reflexivity|]. intros b Hne.
  split; [apply transpose_length|]. split.
  - apply transpose_columns, Hne.
  - intros r c. unfold get_cell, get_item.
    rewrite transpose_lookup by exact Hne.
    destruct (Nat.ltb_spec c (shortest b)) as [Hc|Hc]; [|reflexivity].
    cbn [bind]. unfold column. rewrite lookup_map.
    destruct (b !! r) as [row|] eqn:Er; [|reflexivity].
    cbn [option_map bind]. rewrite lookup_nth.
    assert (Hin : In row b)
      by (apply list_elem_of_In; eapply list_elem_of_lookup_2; exact Er).
    pose proof (shortest_le b row Hin).
    destruct (Nat.ltb_spec c (length row)); [reflexivity | lia].
Qed.

Lemma transpose_cells_witness :
  length (transpose [[1; 2; 3]; [4; 5]; [6; 7; 8; 9]])
  = shortest [[1; 2; 3]; [4; 5]; [6; 7; 8; 9]]
  /\ Forall (fun col => length col = length [[1; 2; 3]; [4; 5]; [6; 7; 8; 9]])
       (transpose [[1; 2; 3]; [4; 5]; [6; 7; 8; 9]])
  /\ forall r c : nat,
      get_cell (transpose [[1; 2; 3]; [4; 5]; [6; 7; 8; 9]]) c r
      = if Nat.ltb c (shortest [[1; 2; 3]; [4; 5]; [6; 7; 8; 9]])
        then get_cell [[1; 2; 3]; [4; 5]; [6; 7; 8; 9]] r c
        else Raise IndexError.
Proof.
  apply (proj2 transpose_cells [[1; 2; 3]; [4; 5]; [6; 7; 8; 9]]).
  discriminate.
Defined.

Lemma shortest_rectangular (n : nat) (b : list (list Z)) :
  b <> [] -> Forall (fun row => length row = n) b -> shortest b = n.
Proof.
  induction b as [|r1 [|r2 rest] IH]; intros Hne H; [congruence| |].
  - apply Forall_cons in H. destruct H as [H _]. exact H.
  - apply Forall_cons in H. destruct H as [H1 H].
    rewrite shortest_cons, IH by (auto; discriminate). lia.
Qed.

(** X17. Transposing twice gives the board back when the board is a
    rectangle with at least one row and one column. *)
Theorem transpose_twice (n : nat) (b : list (list Z)) :
  b <> [] ->
  (0 < n)%nat ->
  Forall (fun row => length row = n) b ->
  transpose (transpose b) = b.
Proof.
  intros Hne Hn Hrect.
  pose proof (shortest_rectangular n b Hne Hrect) as Hs.
  assert (Hne' : transpose b <> []).
  { intros E. pose proof (transpose_length b) as L. rewrite E, Hs in L.
    simpl in L. lia. }
  pose proof (shortest_rectangular (length b) (transpose b) Hne'
                (transpose_columns b Hne)) as Hs'.
  apply list_eq. intros r.
  rewrite transpose_lookup, Hs' by exact Hne'.
  destruct (Nat.ltb_spec r (length b)) as [Hr|Hr];
    [|symmetry; apply lookup_ge_None_2; lia].
  destruct (lookup_lt_is_Some_2 b r Hr) as (row & Er). rewrite Er. f_equal.
  assert (Hrow : length row = n).
  { rewrite Forall_forall in Hrect. apply Hrect.
    eapply list_elem_of_lookup_2. exact Er. }
  apply list_eq. intros c. unfold column at 1.
  rewrite lookup_map, transpose_lookup, Hs, lookup_nth, Hrow by exact Hne.
  destruct (c <? n)%nat; [|reflexivity].
  cbn [option_map]. f_equal. unfold column.
  rewrite nth_lookup, lookup_map, Er. reflexivity.
Qed.

Lemma transpose_twice_witness :
  transpose (transpose [[1; 2; 3]; [4; 5; 6]]) = [[1; 2; 3]; [4; 5; 6]].
Proof.
  apply (transpose_twice 3 [[1; 2; 3]; [4; 5; 6]]).
  - discriminate.
  - lia.
  - repeat first [apply List.Forall_nil | apply List.Forall_cons]; reflexivity.
Defined.
